(** * GramVikas: the conversation engine of [application/app.py]

    A shallow embedding of the Flask handlers [start_session] and
    [handle_conversation], of the helpers they call ([get_session_data],
    [geocode_address], the four data providers, [translate_and_tts],
    [get_api_advice], [get_active_chat_response]) and of the two stores
    they mutate: the in-process dictionary [session_states] and the
    [Farmer] table.

    Conventions of the embedding.
    - A Python [str] is a [string] holding its UTF-8 bytes, so the Hindi
      literals of the source are kept byte for byte.  [strip], [split],
      [title] and [lower] are modelled on the ASCII range; a byte above 127
      is neither whitespace nor cased, which is how Python treats
      Devanagari.  Cased or blank code points outside ASCII are outside
      the model.
    - A Python [float] is a primitive binary64 [float]; its truth value is
      [x != 0.0].
    - Handlers run in a state-and-exception monad: the state survives an
      exception, as the dictionary [session_states] does in the process.
    - Everything the process does not control (Nominatim, Open-Meteo,
      SoilGrids, gTTS) is read from a [world] value, one per request. *)

From Stdlib Require Import ZArith Floats Ascii String List Lia.
From stdpp Require Import base option strings pretty gmap.
Import ListNotations.
Local Open Scope string_scope.

(** ** Python string primitives *)

Module Py.

Definition byte_of (c : ascii) : N := N_of_ascii c.

(** [str.isspace] on the ASCII range: TAB..CR, FS..US and the space. *)
Definition isspace (c : ascii) : bool :=
  let n := byte_of c in
  ((9 <=? n) && (n <=? 13) || (28 <=? n) && (n <=? 32))%N.

Definition isupper (c : ascii) : bool :=
  let n := byte_of c in ((65 <=? n) && (n <=? 90))%N.

Definition islower (c : ascii) : bool :=
  let n := byte_of c in ((97 <=? n) && (n <=? 122))%N.

Definition tolower (c : ascii) : ascii :=
  if isupper c then ascii_of_N (byte_of c + 32) else c.

Definition toupper (c : ascii) : ascii :=
  if islower c then ascii_of_N (byte_of c - 32) else c.

(** [bool(s)] for a string. *)
Definition truthy (s : string) : bool :=
  match s with "" => false | String _ _ => true end.

(** [bool(v)] for a value that is a string or [None]. *)
Definition truthy_opt (o : option string) : bool :=
  match o with Some s => truthy s | None => false end.

Fixpoint lstrip (s : string) : string :=
  match s with
  | String c r => if isspace c then lstrip r else s
  | "" => ""
  end.

Fixpoint rstrip (s : string) : string :=
  match s with
  | String c r =>
      let r' := rstrip r in
      if isspace c && negb (truthy r') then "" else String c r'
  | "" => ""
  end.

(** [s.strip()] *)
Definition strip (s : string) : string := rstrip (lstrip s).

(** [s.split(sep)] for a one-character separator: empty fields are kept,
    and the result always has at least one field. *)
Fixpoint split_on (sep : ascii) (s : string) : list string :=
  match s with
  | "" => [""]
  | String c r =>
      if Ascii.eqb c sep then "" :: split_on sep r
      else match split_on sep r with
           | h :: t => String c h :: t
           | [] => [String c ""]
           end
  end.

(** [s.split()]: fields are the maximal runs of non-blank characters. *)
Fixpoint split (s : string) : list string :=
  match s with
  | "" => []
  | String c r =>
      if isspace c then split r
      else match r with
           | "" => [String c ""]
           | String c' _ =>
               if isspace c' then String c "" :: split r
               else match split r with
                    | h :: t => String c h :: t
                    | [] => [String c ""]
                    end
           end
  end.

(** [s.title()]: a cased character is upper-cased after an uncased one
    and lower-cased after a cased one. *)
Fixpoint title_from (previous_is_cased : bool) (s : string) : string :=
  match s with
  | "" => ""
  | String c r =>
      if islower c then
        String (if previous_is_cased then c else toupper c) (title_from true r)
      else if isupper c then
        String (if previous_is_cased then tolower c else c) (title_from true r)
      else String c (title_from false r)
  end.

Definition title (s : string) : string := title_from false s.

(** [s.lower()] *)
Fixpoint lower (s : string) : string :=
  match s with
  | "" => ""
  | String c r => String (tolower c) (lower r)
  end.

(** [sep.join(l)] *)
Definition join (sep : string) (l : list string) : string :=
  String.concat sep l.

(** [needle in hay] *)
Fixpoint contains (needle hay : string) : bool :=
  String.prefix needle hay
  || match hay with
     | "" => false
     | String _ r => contains needle r
     end.

(** [s.replace(old, new)] for a non-empty [old]: occurrences are replaced
    from the left and do not overlap.  [skip] counts the characters of a
    replaced occurrence that are still to be dropped. *)
Fixpoint replace_from (old new : string) (skip : nat) (s : string) : string :=
  match s with
  | "" => ""
  | String c r =>
      match skip with
      | S k => replace_from old new k r
      | O =>
          if String.prefix old s
          then new +:+ replace_from old new (String.length old - 1) r
          else String c (replace_from old new 0 r)
      end
  end.

Definition replace (old new s : string) : string := replace_from old new 0 s.

(** The newline of the f-strings. *)
Definition nl : string := String (ascii_of_N 10) "".

End Py.

(** ** Python floats: truth value and [format(x, '.2f')] *)

Module PyFloat.

(** [bool(x)]: every float but the two zeros is true (NaN included). *)
Definition truthy (x : float) : bool := negb (PrimFloat.eqb x 0%float).

(** [bool(v)] for a value that is a float or [None]. *)
Definition truthy_opt (o : option float) : bool :=
  match o with Some x => truthy x | None => false end.

(** Nearest integer to [n / d], ties to even ([d] positive). *)
Definition round_half_even (n d : Z) : Z :=
  let q := (n / d)%Z in
  match (2 * (n mod d) ?= d)%Z with
  | Lt => q
  | Gt => (q + 1)%Z
  | Eq => if Z.even q then q else (q + 1)%Z
  end.

Definition two_digits (d : Z) : string :=
  if (d <? 10)%Z then "0" +:+ pretty d else pretty d.

(** [format(x, '.2f')]: the exact binary value, correctly rounded to two
    decimals. *)
Definition format_2f (x : float) : string :=
  match Prim2SF x with
  | S754_nan => "nan"
  | S754_infinity s => if s then "-inf" else "inf"
  | S754_zero s => (if s then "-" else "") +:+ "0.00"
  | S754_finite s m e =>
      let n := (Z.pos m * 100)%Z in
      let q := if (0 <=? e)%Z then (n * 2 ^ e)%Z
               else round_half_even n (2 ^ (- e)) in
      (if s then "-" else "") +:+ pretty (q / 100)%Z +:+ "."
      +:+ two_digits (q mod 100)
  end.

End PyFloat.

(** ** Data model *)

(** A row of the [Farmer] table.  [lat], [lon] and [last_problem_summary]
    are nullable columns. *)
Module Farmer.
Record t : Type := mk {
  id : nat;
  name : string;
  address : string;
  language : string;
  lat : option float;
  lon : option float;
  last_problem_summary : option string
}.
End Farmer.

(** The dictionary [get_session_data] stores for a session id. *)
Module Session.
Record t : Type := mk {
  step : Z;
  name : option string;
  address : option string;
  lang : string;
  farmer_id : option nat;
  problem_text : option string
}.

(** The value a fresh session id is initialised with. *)
Definition fresh : t :=
  {| step := 0; name := None; address := None; lang := "hi";
     farmer_id := None; problem_text := None |}.

Definition set_step (v : Z) (s : t) : t :=
  {| step := v; name := name s; address := address s; lang := lang s;
     farmer_id := farmer_id s; problem_text := problem_text s |}.

Definition set_name (v : string) (s : t) : t :=
  {| step := step s; name := Some v; address := address s; lang := lang s;
     farmer_id := farmer_id s; problem_text := problem_text s |}.

Definition set_address (v : string) (s : t) : t :=
  {| step := step s; name := name s; address := Some v; lang := lang s;
     farmer_id := farmer_id s; problem_text := problem_text s |}.

Definition set_lang (v : string) (s : t) : t :=
  {| step := step s; name := name s; address := address s; lang := v;
     farmer_id := farmer_id s; problem_text := problem_text s |}.

Definition set_farmer_id (v : nat) (s : t) : t :=
  {| step := step s; name := name s; address := address s; lang := lang s;
     farmer_id := Some v; problem_text := problem_text s |}.

Definition set_problem_text (v : string) (s : t) : t :=
  {| step := step s; name := name s; address := address s; lang := lang s;
     farmer_id := farmer_id s; problem_text := Some v |}.
End Session.

(** The mutable state of the process: the module-level dictionary
    [session_states] and the committed rows of the [Farmer] table, in
    rowid order. *)
Record state : Type := mkState {
  session_states : gmap string Session.t;
  farmers : list Farmer.t
}.

(** ** The table *)

Module Db.

(** [Farmer.query.filter_by(name=..., address=...).first()] *)
Definition filter_by_first (name address : string) (rows : list Farmer.t)
  : option Farmer.t :=
  find (fun f => String.eqb (Farmer.name f) name
                 && String.eqb (Farmer.address f) address) rows.

(** [Farmer.query.get(ident)]; a [None] identity finds nothing. *)
Definition get (ident : option nat) (rows : list Farmer.t) : option Farmer.t :=
  match ident with
  | Some i => find (fun f => Nat.eqb (Farmer.id f) i) rows
  | None => None
  end.

(** The rowid SQLite gives the next inserted row. *)
Definition next_id (rows : list Farmer.t) : nat :=
  S (foldr (fun f m => Nat.max (Farmer.id f) m) 0 rows).

(** The row [Farmer(name=..., address=..., language=...)] once
    committed. *)
Definition new_farmer (ident : nat) (name address language : string) : Farmer.t :=
  {| Farmer.id := ident; Farmer.name := name; Farmer.address := address;
     Farmer.language := language; Farmer.lat := None; Farmer.lon := None;
     Farmer.last_problem_summary := None |}.

(** Commit of a modified row: the row with the same primary key is
    replaced. *)
Definition update (f : Farmer.t) (rows : list Farmer.t) : list Farmer.t :=
  map (fun g => if Nat.eqb (Farmer.id g) (Farmer.id f) then f else g) rows.

End Db.

(** ** Results, responses and the outside world *)

(** The exceptions that leave a handler; Flask answers them with a 500. *)
Inductive exn : Type :=
| AttributeError
| TypeError
| KeyError
| IndexError
| IntegrityError.

Inductive res (A : Type) : Type :=
| Ok (a : A)
| Raise (e : exn).
Arguments Ok {A} a.
Arguments Raise {A} e.

(** The JSON body of a response: either [{'error': ...}] or a reply whose
    [audio_url] key may be absent. *)
Inductive body : Type :=
| ErrorBody (error : string)
| Reply (text_response : string) (audio_url : option string) (next_step : Z).

Record response : Type := mkResponse { status : nat; payload : body }.

(** What [geolocator.geocode] does for an address. *)
Inductive geocoded : Type :=
| Location (latitude longitude : float)
| NoLocation
| GeocoderError.

(** What an HTTP fetch and the decoding of its body come to.
    [RequestException] stands for every exception of that class raised by
    [requests.get], [raise_for_status] or [response.json]; [Uncaught] for a
    body on which the accessors of the provider raise another exception. *)
Inductive fetched (A : Type) : Type :=
| RequestException
| Payload (a : A)
| Uncaught (e : exn).
Arguments RequestException {A}.
Arguments Payload {A} a.
Arguments Uncaught {A} e.

(** The three fields read from the [current] object of Open-Meteo, each as
    [str] renders it, [None] when the key is absent. *)
Record weather_current : Type := mkWeather {
  temperature_2m : option string;
  wind_speed_10m : option string;
  precipitation : option string
}.

(** What the loop over the SoilGrids properties keeps: the rendering of
    [round(mean / 10, 1)] for [ph_h2o] and of [round(mean / 100, 2)] for
    [ocd], [None] when no property with that id has a mean. *)
Record soil_means : Type := mkSoil {
  ph_h2o : option string;
  ocd : option string
}.

Record world : Type := mkWorld {
  (** Nominatim, for [geolocator.geocode(address, country_codes='in')] *)
  geocode : string -> geocoded;
  (** Open-Meteo, for the latitude and longitude of the URL *)
  open_meteo : option float -> option float -> fetched weather_current;
  (** SoilGrids, for the [lon] and [lat] parameters *)
  soilgrids : option float -> option float -> fetched soil_means;
  (** [gTTS(text, lang).save(path)]: [true] when the file is written *)
  gtts_save : string -> string -> string -> bool
}.

(** ** The monad of the handlers *)

Definition M (A : Type) : Type := state -> state * res A.

#[global] Instance M_ret : MRet M := fun A a st => (st, Ok a).

#[global] Instance M_bind : MBind M := fun A B f m st =>
  match m st with
  | (st', Ok a) => f a st'
  | (st', Raise e) => (st', Raise e)
  end.

Definition raise {A : Type} (e : exn) : M A := fun st => (st, Raise e).

Definition lift {A : Type} (r : res A) : M A := fun st => (st, r).

Definition read : M state := fun st => (st, Ok st).

Definition write (st : state) : M unit := fun _ => (st, Ok ()).

(** [session_states[sid][key] = v], through any alias of the dictionary.
    A missing [sid] would be a [KeyError]. *)
Definition update_session (sid : string) (f : Session.t -> Session.t) : M unit :=
  st ← read;
  match session_states st !! sid with
  | Some s => write (mkState (<[sid := f s]> (session_states st)) (farmers st))
  | None => raise KeyError
  end.

(** [session_states[sid]], read. *)
Definition session_of (sid : string) : M Session.t :=
  st ← read;
  match session_states st !! sid with
  | Some s => mret s
  | None => raise KeyError
  end.

Definition commit (rows : list Farmer.t) : M unit :=
  st ← read; write (mkState (session_states st) rows).

(** ** Geocoding, data providers and speech *)

Definition is_hi (lang : string) : bool := String.eqb lang "hi".

(** [geocode_address]: a pair of coordinates, or [(None, None)] when
    Nominatim finds nothing or raises. *)
Definition geocode_address (w : world) (address : string)
  : option float * option float :=
  match geocode w address with
  | Location latitude longitude => (Some latitude, Some longitude)
  | NoLocation => (None, None)
  | GeocoderError => (None, None)
  end.

(** The [error_msg] of [get_current_weather]. *)
Definition weather_error_msg (lang : string) : string :=
  if is_hi lang then "मौसम की जानकारी नहीं मिल सकी। बाहरी सेवा में त्रुटि।"
  else "Could not retrieve weather information. External service error.".

(** The text [get_current_weather] builds from the fetched fields.  The
    format [:.2f] raises a [TypeError] on [None]. *)
Definition weather_text (latitude longitude : option float)
    (current : weather_current) (lang : string) : res string :=
  let temp := default "N/A" (temperature_2m current) in
  let wind_speed := default "N/A" (wind_speed_10m current) in
  let rain := default "N/A" (precipitation current) in
  match latitude, longitude with
  | Some la, Some lo =>
      if is_hi lang then
        Ok ("आपके खेत (" +:+ PyFloat.format_2f la +:+ ", " +:+ PyFloat.format_2f lo
            +:+ ") पर आज का तापमान " +:+ temp
            +:+ " डिग्री सेल्सियस है। हवा की गति " +:+ wind_speed
            +:+ " km/h है और वर्षा " +:+ rain
            +:+ " mm है। सिंचाई की योजना इसी के अनुसार बनाएं।")
      else
        Ok ("Current temperature at your farm (" +:+ PyFloat.format_2f la +:+ ", "
            +:+ PyFloat.format_2f lo +:+ ") is " +:+ temp
            +:+ "°C. Wind speed is " +:+ wind_speed
            +:+ " km/h, and precipitation is " +:+ rain
            +:+ " mm. Plan irrigation accordingly.")
  | _, _ => Raise TypeError
  end.

Definition get_current_weather (w : world) (latitude longitude : option float)
    (lang : string) : res string :=
  match open_meteo w latitude longitude with
  | Payload current => weather_text latitude longitude current lang
  | RequestException => Ok (weather_error_msg lang)
  | Uncaught e => Raise e
  end.

(** The [error_msg] of [get_soil_data]. *)
Definition soil_error_msg (lang : string) : string :=
  if is_hi lang then "मिट्टी की जानकारी नहीं मिल सकी। बाहरी सेवा में त्रुटि।"
  else "Could not retrieve soil data. External service error.".

Definition soil_text (means : soil_means) (lang : string) : string :=
  let ph := default "N/A" (ph_h2o means) in
  let ocd := match ocd means with Some r => r +:+ "%" | None => "N/A" end in
  if is_hi lang then
    "ISRIC डेटा के अनुसार, आपकी मिट्टी का pH स्तर लगभग **" +:+ ph
    +:+ "** है और जैविक कार्बन (Organic Carbon) लगभग **" +:+ ocd
    +:+ "** है। यह जानकारी आपकी फसल के लिए बहुत महत्वपूर्ण है।"
  else
    "Based on ISRIC data, your soil pH is approximately **" +:+ ph
    +:+ "** and Organic Carbon is approximately **" +:+ ocd
    +:+ "**. This information is vital for your crop.".

Definition get_soil_data (w : world) (latitude longitude : option float)
    (lang : string) : res string :=
  match soilgrids w longitude latitude with
  | Payload means => Ok (soil_text means lang)
  | RequestException => Ok (soil_error_msg lang)
  | Uncaught e => Raise e
  end.

(** [d.get(k)] on a dictionary literal. *)
Fixpoint dict_get {A : Type} (d : list (string * A)) (k : string) : option A :=
  match d with
  | [] => None
  | (k', v) :: d' => if String.eqb k' k then Some v else dict_get d' k
  end.

Definition prices : list (string * Z) :=
  [("wheat", 2200%Z); ("rice", 4000%Z); ("corn", 1800%Z)].

Definition hindi_crops : list (string * string) :=
  [("wheat", "गेहूं"); ("rice", "धान"); ("corn", "मक्का")].

Definition get_market_prices (crop_name lang : string) : string :=
  match dict_get prices (Py.lower crop_name) with
  | Some price =>
      if is_hi lang then
        let hindi_crop := default crop_name (dict_get hindi_crops (Py.lower crop_name)) in
        "बाजार में आज **" +:+ hindi_crop +:+ "** का भाव ₹" +:+ pretty price
        +:+ " प्रति क्विंटल है (OGD API setup pending)."
      else
        "The current market price for **" +:+ crop_name +:+ "** is ₹" +:+ pretty price
        +:+ " per quintal (OGD API setup pending)."
  | None =>
      if is_hi lang then "बाजार भाव नहीं मिल सका। (OGD API setup pending)"
      else "Could not retrieve market price. (OGD API setup pending)"
  end.

(** The vegetation-health provider is a placeholder: it reads nothing and
    has no failure path. *)
Definition get_ndvi_advice (latitude longitude : option float)
    (crop_name lang : string) : string :=
  if is_hi lang then
    "सेटेलाइट डेटा (Sentinel-2 NDVI) के अनुसार, आपकी **" +:+ crop_name
    +:+ "** फसल का स्वास्थ्य सामान्य है। **अगले सप्ताह नाइट्रोजन उर्वरक डालें**।"
  else
    "Satellite data (Sentinel-2 NDVI) shows your **" +:+ crop_name
    +:+ "** crop health is normal. **Apply Nitrogen fertilizer next week**.".

(** [translate_and_tts]: the path of the audio file, or [None] when gTTS
    raises. *)
Definition translate_and_tts (w : world) (text lang_code session_id : string)
  : option string :=
  let audio_path := "static/audio/response_" +:+ session_id +:+ ".mp3" in
  let tts_lang := if String.eqb lang_code "en" then "en" else "hi" in
  if gtts_save w text tts_lang audio_path then Some audio_path else None.

(** The closing [jsonify] of a turn.  [audio_path.replace] is an
    [AttributeError] when [translate_and_tts] returned [None]. *)
Definition jsonify_reply (text_response : string) (audio_path : option string)
    (next_step : Z) : res response :=
  match audio_path with
  | Some p =>
      Ok (mkResponse 200
            (Reply text_response (Some (Py.replace "static/" "/audio/" p)) next_step))
  | None => Raise AttributeError
  end.

(** ** Sessions and handlers *)

(** [get_session_data]: the stored dictionary, created at step 0 for an
    unseen id. *)
Definition get_session_data (session_id : string) : M Session.t :=
  st ← read;
  match session_states st !! session_id with
  | Some s => mret s
  | None =>
      write (mkState (<[session_id := Session.fresh]> (session_states st)) (farmers st));;
      mret Session.fresh
  end.

Definition welcome_text (lang : string) : string :=
  if is_hi lang then
    "नमस्ते! मैं आपकी कृषि सलाहकार, 'कीशा' हूँ। कृपया अपना नाम और गाँव/पता बताएं।"
  else
    "Hello! I am your agricultural advisor, 'Kisha'. Please tell me your name and village/address.".

(** [start_session], for the [session_id] and [lang] keys of the request
    body ([None]: the key is absent). *)
Definition start_session (w : world) (session_id lang : option string) : M response :=
  let lang := default "hi" lang in
  if negb (Py.truthy_opt session_id) then
    mret (mkResponse 400 (ErrorBody "Missing session ID"))
  else
    let session_id := default "" session_id in
    get_session_data session_id;;
    update_session session_id (Session.set_lang lang);;
    update_session session_id (Session.set_step 1);;
    let audio_path := translate_and_tts w (welcome_text lang) lang session_id in
    lift (jsonify_reply (welcome_text lang) audio_path 1).

(** The fixed section headers and the closing hint of the advisory, in
    the order problem, weather, soil, crop health. *)
Definition final_advice (lang problem_text weather_info soil_info ndvi_advice : string)
  : string :=
  if is_hi lang then
    "**समस्या:** " +:+ problem_text +:+ Py.nl
    +:+ ("**मौसम की जानकारी:** " +:+ weather_info +:+ Py.nl)
    +:+ ("**मिट्टी की सलाह:** " +:+ soil_info +:+ Py.nl)
    +:+ ("**फसल स्वास्थ्य रिपोर्ट:** " +:+ ndvi_advice +:+ Py.nl +:+ Py.nl)
    +:+ "बाजार भाव जानने के लिए 'बाजार भाव' टाइप करें।"
  else
    "**Problem:** " +:+ problem_text +:+ Py.nl
    +:+ ("**Weather Info:** " +:+ weather_info +:+ Py.nl)
    +:+ ("**Soil Advice:** " +:+ soil_info +:+ Py.nl)
    +:+ ("**Crop Health Report:** " +:+ ndvi_advice +:+ Py.nl +:+ Py.nl)
    +:+ "To know market prices, type 'market price'.".

Definition get_api_advice (w : world) (session_id : string)
    (lat lon : option float) (problem_text lang : string) : M response :=
  let crop_name := "rice" in
  weather_info ← lift (get_current_weather w lat lon lang);
  soil_info ← lift (get_soil_data w lat lon lang);
  let ndvi_advice := get_ndvi_advice lat lon crop_name lang in
  let final_advice := final_advice lang problem_text weather_info soil_info ndvi_advice in
  let audio_path := translate_and_tts w final_advice lang session_id in
  update_session session_id (Session.set_step 4);;
  s ← session_of session_id;
  lift (jsonify_reply final_advice audio_path (Session.step s)).

Definition thanks_text (lang : string) : string :=
  if is_hi lang then
    "आपकी मदद करके खुशी हुई। ग्राम विकास का उपयोग करने के लिए धन्यवाद! जल्द ही फिर मिलते हैं।"
  else "Happy to help you. Thank you for using Gram Vikas! See you soon.".

Definition fallback_text (lang : string) : string :=
  if is_hi lang then
    "मैं अभी केवल मौसम, मिट्टी या बाजार भाव की जानकारी दे सकता हूँ। कोई और सवाल?"
  else
    "I can currently provide information on weather, soil, or market prices. Any other questions?".

Definition get_active_chat_response (w : world) (session_id : string)
    (farmer : Farmer.t) (query_text lang : string) : M response :=
  let query := Py.lower query_text in
  let crop_name := "wheat" in
  response_text ← lift (
    if (Py.contains "बाजार" query || Py.contains "कीमत" query
        || Py.contains "price" query || Py.contains "market" query)
       && Py.truthy_opt (Farmer.last_problem_summary farmer)
    then Ok (get_market_prices crop_name lang)
    else if Py.contains "मौसम" query || Py.contains "weather" query
            || Py.contains "तापमान" query || Py.contains "temperature" query
    then get_current_weather w (Farmer.lat farmer) (Farmer.lon farmer) lang
    else if Py.contains "मिट्टी" query || Py.contains "soil" query
            || Py.contains "ph" query
    then get_soil_data w (Farmer.lat farmer) (Farmer.lon farmer) lang
    else if Py.contains "धन्यवाद" query || Py.contains "thanks" query
    then Ok (thanks_text lang)
    else Ok (fallback_text lang));
  let audio_path := translate_and_tts w response_text lang session_id in
  s ← session_of session_id;
  lift (jsonify_reply response_text audio_path (Session.step s)).

(** *** Step 1: name and address *)

Definition strip_title (p : string) : string := Py.title (Py.strip p).

(** The list [parts]: the fields between commas, or the blank-separated
    words when there is no comma. *)
Definition parse_parts (farmer_input : string) : list string :=
  let parts := map strip_title (Py.split_on "," farmer_input) in
  if (length parts <? 2)%nat then map strip_title (Py.split farmer_input)
  else parts.

Definition parsed_name (parts : list string) : string :=
  match parts with p :: _ => p | [] => "Kisan" end.

Definition parsed_address (parts : list string) : string :=
  if (1 <? length parts)%nat then Py.join " " (tail parts) else "Unknown Address".

Definition welcome_back_problem_text (lang : string) (farmer : Farmer.t) : string :=
  let summary := default "" (Farmer.last_problem_summary farmer) in
  if is_hi lang then
    "नमस्ते, " +:+ Farmer.name farmer +:+ "! पिछली बार आपको '" +:+ summary
    +:+ "' की समस्या थी। क्या वह हल हो गई है, या आप किसी नई समस्या का सामना कर रहे हैं?"
  else
    "Welcome back, " +:+ Farmer.name farmer
    +:+ "! Last time you faced an issue with '" +:+ summary
    +:+ "'. Has that been solved, or are you facing a new problem?".

Definition welcome_back_text (lang : string) (farmer : Farmer.t) : string :=
  if is_hi lang then
    "आपका फिर से स्वागत है, " +:+ Farmer.name farmer
    +:+ "! कृपया अपनी मुख्य कृषि समस्या बताएं।"
  else
    "Welcome back, " +:+ Farmer.name farmer
    +:+ "! Please tell me your main agricultural problem.".

Definition new_user_text (lang name : string) : string :=
  if is_hi lang then
    "धन्यवाद " +:+ name +:+ "! अब कृपया अपनी मुख्य कृषि समस्या बताएं。"
  else
    "Thank you " +:+ name +:+ "! Now, please tell me your main agricultural problem.".

(** [db.session.add(new_farmer); db.session.commit()]: the unique
    constraint on (name, address) refuses a second row with the pair. *)
Definition db_add (name address language : string) : M nat :=
  st ← read;
  match Db.filter_by_first name address (farmers st) with
  | Some _ => raise IntegrityError
  | None =>
      let ident := Db.next_id (farmers st) in
      write (mkState (session_states st)
               (farmers st ++ [Db.new_farmer ident name address language]));;
      mret ident
  end.

(** The branch [if step == 1] of [handle_conversation]. *)
Definition handle_step_1 (w : world) (session_id lang farmer_input : string)
  : M response :=
  let parts := parse_parts farmer_input in
  let name := parsed_name parts in
  let address := parsed_address parts in
  update_session session_id (Session.set_name name);;
  update_session session_id (Session.set_address address);;
  st ← read;
  let farmer := Db.filter_by_first name address (farmers st) in
  response_text ←
    match farmer with
    | Some f =>
        update_session session_id (Session.set_farmer_id (Farmer.id f));;
        update_session session_id (Session.set_step 3);;
        if Py.truthy_opt (Farmer.last_problem_summary f) then
          mret (welcome_back_problem_text lang f)
        else
          update_session session_id (Session.set_step 2);;
          mret (welcome_back_text lang f)
    | None =>
        update_session session_id (Session.set_step 2);;
        mret (new_user_text lang name)
    end;
  match farmer with
  | Some _ => mret ()
  | None =>
      ident ← db_add name address lang;
      update_session session_id (Session.set_farmer_id ident)
  end;;
  let audio_path := translate_and_tts w response_text lang session_id in
  s ← session_of session_id;
  lift (jsonify_reply response_text audio_path (Session.step s)).

(** *** Step 2: the problem, geocoding and the advisory *)

Definition geocode_failed_text (lang : string) : string :=
  if is_hi lang then
    "क्षमा करें, हम आपके पते के लिए GPS स्थान नहीं ढूंढ पाए। कृपया अपना पता थोड़ा स्पष्ट करके दें।"
  else
    "Sorry, we could not find the GPS location for your address. Please provide a slightly clearer address.".

Definition farmer_not_found_text (lang : string) : string :=
  if is_hi lang then "आंतरिक त्रुटि: किसान रिकॉर्ड नहीं मिला।"
  else "Internal error: Farmer record not found.".

(** The row as the handler holds it before the commit: the problem, and
    the coordinates once geocoded. *)
Definition with_problem (problem_text : string) (f : Farmer.t) : Farmer.t :=
  {| Farmer.id := Farmer.id f; Farmer.name := Farmer.name f;
     Farmer.address := Farmer.address f; Farmer.language := Farmer.language f;
     Farmer.lat := Farmer.lat f; Farmer.lon := Farmer.lon f;
     Farmer.last_problem_summary := Some problem_text |}.

Definition with_coordinates (lat lon : option float) (f : Farmer.t) : Farmer.t :=
  {| Farmer.id := Farmer.id f; Farmer.name := Farmer.name f;
     Farmer.address := Farmer.address f; Farmer.language := Farmer.language f;
     Farmer.lat := lat; Farmer.lon := lon;
     Farmer.last_problem_summary := Farmer.last_problem_summary f |}.

(** The branch [elif step == 2].  The assignment to
    [farmer.last_problem_summary] reaches the table only through the
    commit of the geocoded branch; [db.session.close()] drops it. *)
Definition handle_step_2 (w : world) (session_id lang farmer_input : string)
  : M response :=
  let problem_text := farmer_input in
  update_session session_id (Session.set_problem_text problem_text);;
  update_session session_id (Session.set_step 3);;
  s ← session_of session_id;
  st ← read;
  match Db.get (Session.farmer_id s) (farmers st) with
  | Some farmer =>
      let farmer := with_problem problem_text farmer in
      let '(lat, lon) := geocode_address w (Farmer.address farmer) in
      if PyFloat.truthy_opt lat && PyFloat.truthy_opt lon then
        commit (Db.update (with_coordinates lat lon farmer) (farmers st));;
        get_api_advice w session_id lat lon problem_text lang
      else
        let response_text := geocode_failed_text lang in
        let audio_path := translate_and_tts w response_text lang session_id in
        update_session session_id (Session.set_step 1);;
        lift (jsonify_reply response_text audio_path 1)
  | None =>
      let response_text := farmer_not_found_text lang in
      let audio_path := translate_and_tts w response_text lang session_id in
      lift (jsonify_reply response_text audio_path 1)
  end.

(** *** Step 3 and above: active chat *)

Definition address_needed_text (lang : string) : string :=
  if is_hi lang then
    "कृपया अपना पता सही से बताएं ताकि मैं आपके खेत के लिए सटीक जानकारी दे सकूं।"
  else "Please provide your address so I can retrieve location-based data.".

(** The branch [elif step >= 3]. *)
Definition handle_active_chat (w : world) (session_id lang farmer_input : string)
  : M response :=
  s ← session_of session_id;
  st ← read;
  match Db.get (Session.farmer_id s) (farmers st) with
  | Some farmer =>
      if negb (PyFloat.truthy_opt (Farmer.lat farmer)) then
        mret (mkResponse 400 (Reply (address_needed_text lang) None 1))
      else get_active_chat_response w session_id farmer farmer_input lang
  | None => mret (mkResponse 400 (Reply (address_needed_text lang) None 1))
  end.

(** [handle_conversation], for the [session_id] and [query] keys of the
    request body ([None]: the key is absent). *)
Definition handle_conversation (w : world) (session_id query : option string)
  : M response :=
  let farmer_input := Py.strip (default "" query) in
  if negb (Py.truthy_opt session_id) || negb (Py.truthy farmer_input) then
    mret (mkResponse 400 (ErrorBody "Missing session ID or query"))
  else
    let session_id := default "" session_id in
    session_data ← get_session_data session_id;
    let step := Session.step session_data in
    let lang := Session.lang session_data in
    if (step =? 1)%Z then handle_step_1 w session_id lang farmer_input
    else if (step =? 2)%Z then handle_step_2 w session_id lang farmer_input
    else if (3 <=? step)%Z then handle_active_chat w session_id lang farmer_input
    else mret (mkResponse 400 (ErrorBody "Invalid conversation step.")).

(** ** Vocabulary of the statements *)

(** The step stored for a session id, if the id is known. *)
Definition step_of (session_id : string) (st : state) : option Z :=
  Session.step <$> session_states st !! session_id.

(** The identity a session is linked to. *)
Definition identity_of (session_id : string) (st : state) : option (option nat) :=
  Session.farmer_id <$> session_states st !! session_id.

Definition put_session (sid : string) (s : Session.t) (st : state) : state :=
  mkState (<[sid := s]> (session_states st)) (farmers st).

(** The state [start_session] leaves for an accepted request. *)
Definition started (lang : option string) (s : Session.t) : Session.t :=
  Session.set_step 1 (Session.set_lang (default "hi" lang) s).


(** The session as step 2 leaves it when geocoding gives no usable pair:
    the problem is recorded and the step is back at 1. *)
Definition reverted (problem_text : string) (s : Session.t) : Session.t :=
  Session.set_step 1 (Session.set_step 3 (Session.set_problem_text problem_text s)).

(** *** The router, as the specification words it *)

(** The four categories of a follow-up and the fallback. *)
Inductive intent : Type := Market | Weather | Soil | Thanks | Fallback.

(** The keyword set of a category, Hindi and English side by side. *)
Definition keywords (i : intent) : list string :=
  match i with
  | Market => ["बाजार"; "कीमत"; "price"; "market"]
  | Weather => ["मौसम"; "weather"; "तापमान"; "temperature"]
  | Soil => ["मिट्टी"; "soil"; "ph"]
  | Thanks => ["धन्यवाद"; "thanks"]
  | Fallback => []
  end.

(** Case-insensitive substring matching against the keyword set. *)
Definition mentions (i : intent) (query_text : string) : bool :=
  existsb (fun k => Py.contains k (Py.lower query_text)) (keywords i).

(** The extra condition of a category: market prices need an advisory
    context. *)
Definition allowed (context : bool) (i : intent) : bool :=
  match i with Market => context | _ => true end.

(** The check of a category. *)
Definition passes (context : bool) (query_text : string) (i : intent) : bool :=
  mentions i query_text && allowed context i.

(** The checks in their priority order, and the place of each category
    in it. *)
Definition priority : list intent := [Market; Weather; Soil; Thanks].


(** First match wins; without a match, the fallback. *)
Definition classify (context : bool) (query_text : string) : intent :=
  default Fallback (find (passes context query_text) priority).

(** The text each category is answered with. *)
Definition answer (w : world) (farmer : Farmer.t) (lang : string) (i : intent)
  : res string :=
  match i with
  | Market => Ok (get_market_prices "wheat" lang)
  | Weather => get_current_weather w (Farmer.lat farmer) (Farmer.lon farmer) lang
  | Soil => get_soil_data w (Farmer.lat farmer) (Farmer.lon farmer) lang
  | Thanks => Ok (thanks_text lang)
  | Fallback => Ok (fallback_text lang)
  end.

(** The end of a router turn: speech, then the reply with the stored
    step. *)
Definition send (w : world) (session_id lang : string) (text : res string)
  : M response :=
  response_text ← lift text;
  let audio_path := translate_and_tts w response_text lang session_id in
  s ← session_of session_id;
  lift (jsonify_reply response_text audio_path (Session.step s)).

(** ** Sample worlds and states *)

(** Every service answers: Pune is geocoded, the weather and soil
    services return data, the speech file is written. *)
Definition world_up : world :=
  {| geocode := fun a =>
       if String.eqb a "Pune" then Location 18.5%float 73.75%float else NoLocation;
     open_meteo := fun _ _ => Payload (mkWeather (Some "23.5") (Some "4.2") None);
     soilgrids := fun _ _ => Payload (mkSoil (Some "6.4") None);
     gtts_save := fun _ _ _ => true |}.

(** The process at start-up, with an empty table. *)
Definition state_empty : state := mkState ∅ [].

(** A farmer who has been advised once, and a session chatting with them. *)
Definition ravi_located : Farmer.t :=
  {| Farmer.id := 1; Farmer.name := "Ravi"; Farmer.address := "Pune";
     Farmer.language := "en"; Farmer.lat := Some 18.5%float;
     Farmer.lon := Some 73.75%float;
     Farmer.last_problem_summary := Some "my wheat leaves are yellow" |}.

Definition session_chat : Session.t :=
  {| Session.step := 4; Session.name := Some "Ravi"; Session.address := Some "Pune";
     Session.lang := "en"; Session.farmer_id := Some 1;
     Session.problem_text := Some "my wheat leaves are yellow" |}.

Definition state_chat : state := mkState {[ "s1" := session_chat ]} [ravi_located].

(** A farmer just registered, and the session that is about to state its
    problem. *)
Definition ravi_new : Farmer.t := Db.new_farmer 1 "Ravi" "Pune" "en".

Definition session_problem : Session.t :=
  {| Session.step := 2; Session.name := Some "Ravi"; Session.address := Some "Pune";
     Session.lang := "en"; Session.farmer_id := Some 1;
     Session.problem_text := None |}.

Definition state_problem : state := mkState {[ "s1" := session_problem ]} [ravi_new].


(** Nominatim places every address on the equator at latitude 0.0. *)
Definition world_equator : world :=
  {| geocode := fun _ => Location 0%float 73.75%float;
     open_meteo := open_meteo world_up; soilgrids := soilgrids world_up;
     gtts_save := gtts_save world_up |}.


(** Nominatim's answer for Ravi's farm has become latitude 0.0 in the
    table. *)
Definition ravi_equator : Farmer.t :=
  {| Farmer.id := 1; Farmer.name := "Ravi"; Farmer.address := "Pune";
     Farmer.language := "en"; Farmer.lat := Some 0%float;
     Farmer.lon := Some 73.75%float;
     Farmer.last_problem_summary := Some "my wheat leaves are yellow" |}.

Definition state_equator : state := mkState {[ "s1" := session_chat ]} [ravi_equator].

(** A session that has just been started in English. *)
Definition session_started : Session.t := started (Some "en") Session.fresh.

Definition state_started : state := mkState {[ "s1" := session_started ]} [].

(** Ravi comes back: the table knows him and his last problem. *)
Definition state_returning : state :=
  mkState {[ "s1" := session_started ]} [ravi_located].




(** ** Sequences of requests *)

(** A request to one of the two endpoints, with the keys of its body. *)
Inductive request : Type :=
| StartSession (session_id lang : option string)
| Chat (session_id query : option string).

Definition handle (w : world) (r : request) : M response :=
  match r with
  | StartSession session_id lang => start_session w session_id lang
  | Chat session_id query => handle_conversation w session_id query
  end.

(** The state after a sequence of requests, each met by its own world. *)
Fixpoint run (trace : list (world * request)) (st : state) : state :=
  match trace with
  | [] => st
  | (w, r) :: trace' => run trace' (fst (handle w r st))
  end.

Definition step_in_range (s : Session.t) : Prop := (0 <= Session.step s <= 4)%Z.

(** Every stored step is one of 0, 1, 2, 3, 4. *)
Definition steps_in_range (st : state) : Prop :=
  forall sid s, session_states st !! sid = Some s -> step_in_range s.

(** A monadic computation keeps a property of the state, whether it
    returns or raises. *)
Definition keeps (P : state -> Prop) {A : Type} (m : M A) : Prop :=
  forall st, P st -> P (fst (m st)).

(** A row with a problem summary and no coordinates, as a table written
    before coordinates were stored may hold. *)
Definition ravi_legacy : Farmer.t :=
  {| Farmer.id := 1; Farmer.name := "Ravi"; Farmer.address := "Pune";
     Farmer.language := "en"; Farmer.lat := None; Farmer.lon := None;
     Farmer.last_problem_summary := Some "my wheat leaves are yellow" |}.

Definition state_legacy : state := mkState ∅ [ravi_legacy].

(** A session at step 2 whose farmer is no longer in the table. *)
Definition state_orphan : state := mkState {[ "s1" := session_problem ]} [].

(** ** The engine as a transition system *)

(** What an accepted chat turn can do to the dictionary [s] of its
    session and to the rows of the table: one constructor for each path
    through [handle_conversation]. *)
Inductive turn (rows : list Farmer.t) (s : Session.t)
  : Session.t -> list Farmer.t -> Prop :=
| turn_idle :
    Session.step s <> 1%Z -> Session.step s <> 2%Z ->
    turn rows s s rows
| turn_recap name address f :
    Session.step s = 1%Z ->
    Db.filter_by_first name address rows = Some f ->
    Py.truthy_opt (Farmer.last_problem_summary f) = true ->
    turn rows s
      (Session.set_step 3
         (Session.set_farmer_id (Farmer.id f)
            (Session.set_address address (Session.set_name name s))))
      rows
| turn_welcome name address f :
    Session.step s = 1%Z ->
    Db.filter_by_first name address rows = Some f ->
    Py.truthy_opt (Farmer.last_problem_summary f) = false ->
    turn rows s
      (Session.set_step 2
         (Session.set_farmer_id (Farmer.id f)
            (Session.set_address address (Session.set_name name s))))
      rows
| turn_register name address :
    Session.step s = 1%Z ->
    Db.filter_by_first name address rows = None ->
    turn rows s
      (Session.set_farmer_id (Db.next_id rows)
         (Session.set_step 2
            (Session.set_address address (Session.set_name name s))))
      (rows ++ [Db.new_farmer (Db.next_id rows) name address (Session.lang s)])
| turn_orphan problem_text :
    Session.step s = 2%Z ->
    Db.get (Session.farmer_id s) rows = None ->
    turn rows s (Session.set_step 3 (Session.set_problem_text problem_text s)) rows
| turn_ungeocoded problem_text f :
    Session.step s = 2%Z ->
    Db.get (Session.farmer_id s) rows = Some f ->
    turn rows s (reverted problem_text s) rows
| turn_advised problem_text f la lo k :
    Session.step s = 2%Z ->
    Db.get (Session.farmer_id s) rows = Some f ->
    PyFloat.truthy la = true -> PyFloat.truthy lo = true ->
    k = 3%Z \/ k = 4%Z ->
    turn rows s
      (Session.set_step k (Session.set_problem_text problem_text s))
      (Db.update
         (with_coordinates (Some la) (Some lo) (with_problem problem_text f)) rows).

(** What a request can do to the state: nothing (it is rejected), a
    restart of its session, or a turn of its session. *)
Inductive effect (st : state) : state -> Prop :=
| effect_none : effect st st
| effect_start sid lang :
    effect st
      (put_session sid
         (started lang (default Session.fresh (session_states st !! sid))) st)
| effect_turn sid s' rows' :
    turn (farmers st) (default Session.fresh (session_states st !! sid)) s' rows' ->
    effect st (mkState (<[sid := s']> (session_states st)) rows').

(** The edges a chat turn moves the stored step along. *)
Definition chat_edge (before after : Z) : Prop :=
  (before = 1 /\ (after = 2 \/ after = 3))%Z
  \/ (before = 2 /\ (after = 1 \/ after = 3 \/ after = 4))%Z
  \/ (before <> 1 /\ before <> 2 /\ after = before)%Z.

(** The pair the unique constraint of the table is on. *)
Definition key (f : Farmer.t) : string * string := (Farmer.name f, Farmer.address f).

(** The primary key and the unique constraint hold. *)
Definition table_ok (rows : list Farmer.t) : Prop :=
  List.NoDup (map Farmer.id rows) /\ List.NoDup (map key rows).

(** What a row is known by: its id, name, address and language. *)
Definition registration (f : Farmer.t) : nat * string * string * string :=
  (Farmer.id f, Farmer.name f, Farmer.address f, Farmer.language f).

(** A row with a problem on record has usable coordinates. *)
Definition advised_ok (rows : list Farmer.t) : Prop :=
  forall f, In f rows ->
    Py.truthy_opt (Farmer.last_problem_summary f) = true ->
    PyFloat.truthy_opt (Farmer.lat f) = true /\ PyFloat.truthy_opt (Farmer.lon f) = true.

(** From step 2 on a session points at a row; from step 3 on that row
    has a usable latitude. *)
Definition linked (rows : list Farmer.t) (s : Session.t) : Prop :=
  (2 <= Session.step s)%Z ->
  exists f, Db.get (Session.farmer_id s) rows = Some f
            /\ ((3 <= Session.step s)%Z -> PyFloat.truthy_opt (Farmer.lat f) = true).

Definition consistent (st : state) : Prop :=
  table_ok (farmers st) /\ advised_ok (farmers st)
  /\ forall sid s, session_states st !! sid = Some s -> linked (farmers st) s.

(** No speech file can be written. *)
Definition world_mute : world :=
  {| geocode := geocode world_up; open_meteo := open_meteo world_up;
     soilgrids := soilgrids world_up; gtts_save := fun _ _ _ => false |}.


(** The session id a request carries. *)
Definition addressed (r : request) : option string :=
  match r with
  | StartSession session_id _ => session_id
  | Chat session_id _ => session_id
  end.

(** A world whose weather and soil services never answer with a body the
    providers cannot read. *)
Definition readable (w : world) : Prop :=
  forall a b e, open_meteo w a b <> Uncaught e /\ soilgrids w a b <> Uncaught e.

(** A visitor who asks for French. *)
Definition session_french : Session.t := started (Some "fr") Session.fresh.
(** ** The Python primitives on examples *)

Example strip_ex : Py.strip "  Ravi, Pune  " = "Ravi, Pune".
Proof. reflexivity. Qed.

Example split_on_ex : Py.split_on "," "Ravi, Pune,MH" = ["Ravi"; " Pune"; "MH"].
Proof. reflexivity. Qed.

Example split_on_trailing : Py.split_on "," "Ravi," = ["Ravi"; ""].
Proof. reflexivity. Qed.

Example split_ex : Py.split "ravi  kumar pune" = ["ravi"; "kumar"; "pune"].
Proof. reflexivity. Qed.

Example title_ex : Py.title "rAVI o'neil 2nd" = "Ravi O'Neil 2Nd".
Proof. reflexivity. Qed.

Example contains_ex :
  Py.contains "price" (Py.lower "Market PRICE?") = true
  /\ Py.contains "ph" "photo" = true
  /\ Py.contains "soil" "weather" = false.
Proof. repeat split; reflexivity. Qed.

Example replace_ex :
  Py.replace "static/" "/audio/" "static/audio/response_s1.mp3"
  = "/audio/audio/response_s1.mp3".
Proof. reflexivity. Qed.

Example truthy_zero : PyFloat.truthy 0%float = false /\ PyFloat.truthy (-0)%float = false.
Proof. split; reflexivity. Qed.

Example truthy_nan : PyFloat.truthy nan = true.
Proof. reflexivity. Qed.

Example format_2f_ex :
  PyFloat.format_2f 0x1.2851eb851eb85p+4%float = "18.52"
  /\ PyFloat.format_2f 0.125%float = "0.12"
  /\ PyFloat.format_2f 0.375%float = "0.38"
  /\ PyFloat.format_2f (-73.5)%float = "-73.50"
  /\ PyFloat.format_2f 1e22%float = "10000000000000000000000.00".
Proof. repeat split; vm_compute; reflexivity. Qed.

(** ** Running the monad *)

Ltac unfold_monad :=
  unfold mbind, M_bind, mret, M_ret, raise, lift, read, write, commit in *.

Lemma bind_run {A B : Type} (m : M A) (k : A -> M B) (st : state) :
  (m ≫= k) st =
  match m st with
  | (st', Ok a) => k a st'
  | (st', Raise e) => (st', Raise e)
  end.
Proof. reflexivity. Qed.

Lemma lift_run {A : Type} (r : res A) (st : state) : lift r st = (st, r).
Proof. reflexivity. Qed.

Lemma read_run (st : state) : read st = (st, Ok st).
Proof. reflexivity. Qed.

Lemma ret_run {A : Type} (a : A) (st : state) : (mret a : M A) st = (st, Ok a).
Proof. reflexivity. Qed.

Lemma write_run (st' st : state) : write st' st = (st', Ok ()).
Proof. reflexivity. Qed.

Lemma commit_run rows st : commit rows st = (mkState (session_states st) rows, Ok ()).
Proof. reflexivity. Qed.

Lemma update_session_run sid f st s :
  session_states st !! sid = Some s ->
  update_session sid f st = (put_session sid (f s) st, Ok ()).
Proof. intros H. unfold update_session. unfold_monad. rewrite H. reflexivity. Qed.

Lemma session_of_run sid st s :
  session_states st !! sid = Some s ->
  session_of sid st = (st, Ok s).
Proof. intros H. unfold session_of. unfold_monad. rewrite H. reflexivity. Qed.

Lemma put_session_lookup sid s st :
  session_states (put_session sid s st) !! sid = Some s.
Proof. unfold put_session; simpl. apply lookup_insert_eq. Qed.

Lemma put_session_twice sid s s' st :
  put_session sid s' (put_session sid s st) = put_session sid s' st.
Proof. unfold put_session; simpl. f_equal. apply insert_insert_eq. Qed.

Lemma put_session_farmers sid s st :
  farmers (put_session sid s st) = farmers st.
Proof. reflexivity. Qed.

Lemma put_session_id sid s st :
  session_states st !! sid = Some s -> put_session sid s st = st.
Proof.
  intros H. destruct st as [m rows]. unfold put_session; simpl in *.
  f_equal. by apply insert_id.
Qed.

Lemma get_session_data_known sid st s :
  session_states st !! sid = Some s ->
  get_session_data sid st = (st, Ok s).
Proof. intros H. unfold get_session_data. unfold_monad. rewrite H. reflexivity. Qed.

Lemma get_session_data_unseen sid st :
  session_states st !! sid = None ->
  get_session_data sid st = (put_session sid Session.fresh st, Ok Session.fresh).
Proof. intros H. unfold get_session_data. unfold_monad. rewrite H. reflexivity. Qed.

(** Whatever the store holds, [get_session_data] returns the stored
    dictionary and leaves it stored. *)
Lemma get_session_data_run sid st :
  let s := default Session.fresh (session_states st !! sid) in
  get_session_data sid st = (put_session sid s st, Ok s).
Proof.
  simpl. destruct (session_states st !! sid) as [s|] eqn:H; simpl.
  - rewrite (get_session_data_known _ _ _ H), (put_session_id _ _ _ H). reflexivity.
  - apply get_session_data_unseen, H.
Qed.

Create Rewrite HintDb session.

Hint Rewrite put_session_lookup put_session_twice put_session_farmers : session.

Ltac step_session :=
  repeat first
    [ rewrite bind_run
    | rewrite read_run
    | rewrite lift_run
    | rewrite ret_run
    | rewrite commit_run
    | rewrite write_run
    | erewrite update_session_run
        by first [eassumption
                 | cbn [session_states]; autorewrite with session; reflexivity]
    | erewrite session_of_run
        by first [eassumption
                 | cbn [session_states]; autorewrite with session; reflexivity]
    | progress autorewrite with session
    | progress cbv beta iota ].

Lemma truthy_opt_some (o : option string) :
  Py.truthy_opt o = true -> exists s, o = Some s /\ Py.truthy s = true.
Proof. destruct o as [s|]; simpl; [eauto | discriminate]. Qed.

Lemma start_session_run w sid lang st :
  Py.truthy sid = true ->
  start_session w (Some sid) lang st =
  (put_session sid (started lang (default Session.fresh (session_states st !! sid))) st,
   jsonify_reply (welcome_text (default "hi" lang))
     (translate_and_tts w (welcome_text (default "hi" lang)) (default "hi" lang) sid) 1).
Proof.
  intros Hs. unfold start_session. simpl. rewrite Hs. simpl.
  rewrite bind_run, get_session_data_run. step_session. reflexivity.
Qed.

(** ** Rejected requests *)



(** ** [start_session] *)

(** C7: for a session id the handler accepts, two calls of [start_session]
    each leave the stored step at 1, neither touches the [Farmer] table (so
    no identity is duplicated), the identity the session was linked to is
    still linked after both, and with the same language the second call
    leaves the state the first one produced. *)
Theorem start_session_idempotent
    (w1 w2 : world) (sid : string) (lang1 lang2 : option string) (st : state) :
  Py.truthy sid = true ->
  let st1 := fst (start_session w1 (Some sid) lang1 st) in
  let st2 := fst (start_session w2 (Some sid) lang2 st1) in
  step_of sid st1 = Some 1%Z /\ step_of sid st2 = Some 1%Z
  /\ farmers st1 = farmers st /\ farmers st2 = farmers st
  /\ (forall s, session_states st !! sid = Some s ->
        identity_of sid st1 = Some (Session.farmer_id s)
        /\ identity_of sid st2 = Some (Session.farmer_id s))
  /\ (lang1 = lang2 -> st2 = st1).
Proof.
  intros Hs st1 st2. subst st1 st2.
  rewrite (start_session_run w1) by exact Hs. cbn [fst].
  rewrite (start_session_run w2) by exact Hs. cbn [fst].
  rewrite put_session_lookup, put_session_twice. cbn [default].
  unfold step_of, identity_of. rewrite !put_session_lookup.
  split; [reflexivity |]. split; [reflexivity |].
  split; [reflexivity |]. split; [reflexivity |]. split.
  - intros s H. rewrite H. split; reflexivity.
  - intros ->. reflexivity.
Qed.

Lemma start_session_idempotent_witness :
  step_of "s1" (fst (start_session world_up (Some "s1") (Some "en") state_empty))
  = Some 1%Z.
Proof.
  apply (start_session_idempotent world_up world_up "s1" (Some "en") (Some "en")
           state_empty).
  reflexivity.
Defined.

(** ** The follow-up router *)

Lemma get_active_chat_response_state w sid farmer query lang st :
  fst (get_active_chat_response w sid farmer query lang st) = st.
Proof.
  unfold get_active_chat_response. rewrite bind_run, lift_run.
  match goal with
  | |- context [match ?r with Ok _ => _ | Raise _ => _ end] =>
      destruct r as [text|e]
  end; [| reflexivity].
  rewrite bind_run. unfold session_of. unfold_monad.
  destruct (session_states st !! sid); reflexivity.
Qed.

Lemma handle_active_chat_state w sid lang query st :
  fst (handle_active_chat w sid lang query st) = st.
Proof.
  unfold handle_active_chat. rewrite bind_run. unfold session_of at 1. unfold_monad.
  destruct (session_states st !! sid) as [s|]; [| reflexivity].
  destruct (Db.get _ _) as [f|]; [| reflexivity].
  destruct (negb _); [reflexivity |].
  apply get_active_chat_response_state.
Qed.

(** C9: the router leaves the whole state as it found it, and so does a
    turn of [handle_conversation] on a session whose step is 4 or more:
    the stored step after the turn is the step before it, still in the
    active-chat range. *)
Theorem router_keeps_step
    (w : world) (sid : string) (query : option string) (st : state) (s : Session.t) :
  session_states st !! sid = Some s ->
  (4 <= Session.step s)%Z ->
  (forall farmer query_text lang,
      fst (get_active_chat_response w sid farmer query_text lang st) = st)
  /\ fst (handle_conversation w (Some sid) query st) = st
  /\ step_of sid (fst (handle_conversation w (Some sid) query st))
     = Some (Session.step s).
Proof.
  intros Hs Hstep.
  assert (Hst : fst (handle_conversation w (Some sid) query st) = st).
  { unfold handle_conversation.
    destruct (negb _ || negb _); [reflexivity |]. simpl default.
    rewrite bind_run, (get_session_data_known _ _ _ Hs).
    destruct (Z.eqb_spec (Session.step s) 1); [lia |].
    destruct (Z.eqb_spec (Session.step s) 2); [lia |].
    destruct (Z.leb_spec 3 (Session.step s)); [| lia].
    apply handle_active_chat_state. }
  split; [| split].
  - intros. apply get_active_chat_response_state.
  - exact Hst.
  - rewrite Hst. unfold step_of. rewrite Hs. reflexivity.
Qed.

Lemma router_keeps_step_witness :
  fst (handle_conversation world_up (Some "s1") (Some "market price") state_chat)
  = state_chat.
Proof.
  apply (router_keeps_step world_up "s1" (Some "market price") state_chat session_chat).
  - reflexivity.
  - simpl. lia.
Defined.

(** ** Dispatch on the stored step *)

Lemma handle_conversation_run w sid query st s :
  Py.truthy sid = true ->
  Py.truthy (Py.strip query) = true ->
  session_states st !! sid = Some s ->
  handle_conversation w (Some sid) (Some query) st =
  (if (Session.step s =? 1)%Z then handle_step_1 w sid (Session.lang s) (Py.strip query)
   else if (Session.step s =? 2)%Z then handle_step_2 w sid (Session.lang s) (Py.strip query)
   else if (3 <=? Session.step s)%Z then
     handle_active_chat w sid (Session.lang s) (Py.strip query)
   else mret (mkResponse 400 (ErrorBody "Invalid conversation step."))) st.
Proof.
  intros Hsid Hq Hs. unfold handle_conversation. simpl. rewrite Hsid, Hq. simpl.
  rewrite bind_run, (get_session_data_known _ _ _ Hs). reflexivity.
Qed.

(** ** The aggregator *)

Lemma get_api_advice_run w sid lat lon problem_text lang st s :
  session_states st !! sid = Some s ->
  get_api_advice w sid lat lon problem_text lang st =
  match get_current_weather w lat lon lang with
  | Raise e => (st, Raise e)
  | Ok weather_info =>
      match get_soil_data w lat lon lang with
      | Raise e => (st, Raise e)
      | Ok soil_info =>
          let text := final_advice lang problem_text weather_info soil_info
                        (get_ndvi_advice lat lon "rice" lang) in
          (put_session sid (Session.set_step 4 s) st,
           jsonify_reply text (translate_and_tts w text lang sid) 4)
      end
  end.
Proof.
  intros Hs. unfold get_api_advice. rewrite bind_run, lift_run.
  destruct (get_current_weather w lat lon lang) as [weather_info|e]; [| reflexivity].
  rewrite bind_run, lift_run.
  destruct (get_soil_data w lat lon lang) as [soil_info|e]; [| reflexivity].
  cbv zeta. rewrite bind_run, (update_session_run _ _ _ _ Hs).
  step_session. reflexivity.
Qed.




(** ** Step 2 *)

Lemma handle_step_2_run w sid lang input st s :
  session_states st !! sid = Some s ->
  handle_step_2 w sid lang input st =
  let s3 := Session.set_step 3 (Session.set_problem_text input s) in
  match Db.get (Session.farmer_id s) (farmers st) with
  | Some f =>
      let '(lat, lon) := geocode_address w (Farmer.address f) in
      if PyFloat.truthy_opt lat && PyFloat.truthy_opt lon then
        get_api_advice w sid lat lon input lang
          (mkState (<[sid := s3]> (session_states st))
             (Db.update (with_coordinates lat lon (with_problem input f)) (farmers st)))
      else
        (put_session sid (reverted input s) st,
         jsonify_reply (geocode_failed_text lang)
           (translate_and_tts w (geocode_failed_text lang) lang sid) 1)
  | None =>
      (put_session sid s3 st,
       jsonify_reply (farmer_not_found_text lang)
         (translate_and_tts w (farmer_not_found_text lang) lang sid) 1)
  end.
Proof.
  intros Hs. unfold handle_step_2. cbv zeta.
  rewrite bind_run, (update_session_run _ _ _ _ Hs). step_session.
  cbn [Session.farmer_id Session.set_step Session.set_problem_text].
  destruct (Db.get _ _) as [f|]; [| step_session; reflexivity].
  cbn [Farmer.address with_problem].
  destruct (geocode_address w (Farmer.address f)) as [lat lon].
  destruct (PyFloat.truthy_opt lat && PyFloat.truthy_opt lon).
  - step_session. reflexivity.
  - step_session. reflexivity.
Qed.

(** A step-2 turn whose geocoded pair is not usable, whichever way. *)
Lemma step_2_without_coordinates w sid query st s f :
  Py.truthy sid = true ->
  Py.truthy (Py.strip query) = true ->
  session_states st !! sid = Some s ->
  Session.step s = 2%Z ->
  Db.get (Session.farmer_id s) (farmers st) = Some f ->
  (let '(lat, lon) := geocode_address w (Farmer.address f) in
   PyFloat.truthy_opt lat && PyFloat.truthy_opt lon) = false ->
  handle_conversation w (Some sid) (Some query) st
  = (put_session sid (reverted (Py.strip query) s) st,
     jsonify_reply (geocode_failed_text (Session.lang s))
       (translate_and_tts w (geocode_failed_text (Session.lang s)) (Session.lang s) sid) 1).
Proof.
  intros Hsid Hq Hs Hstep Hf Hgeo.
  rewrite (handle_conversation_run _ _ _ _ _ Hsid Hq Hs), Hstep. simpl.
  rewrite (handle_step_2_run _ _ _ _ _ _ Hs), Hf. cbv zeta.
  destruct (geocode_address w (Farmer.address f)) as [lat lon].
  rewrite Hgeo. reflexivity.
Qed.



(** ** Step 3 and above *)

Lemma handle_active_chat_no_latitude w sid lang input st s f :
  session_states st !! sid = Some s ->
  Db.get (Session.farmer_id s) (farmers st) = Some f ->
  PyFloat.truthy_opt (Farmer.lat f) = false ->
  handle_active_chat w sid lang input st
  = (st, Ok (mkResponse 400 (Reply (address_needed_text lang) None 1))).
Proof.
  intros Hs Hf Hlat. unfold handle_active_chat.
  rewrite bind_run, (session_of_run _ _ _ Hs). step_session.
  rewrite Hf, Hlat. reflexivity.
Qed.

(** C8: success of geocoding is the truth value of both coordinates.  On
    a step-2 turn for which Nominatim returns a location whose latitude or
    longitude is false as a Python value (0.0 or -0.0), the turn ends as a
    geocoding failure does: the step is stored as 1, the [Farmer] table is
    the one found, the reply is the request for a clearer address.  At a
    step of 3 or more, a farmer whose stored latitude is such a value is
    answered as one without coordinates: status 400, the request for an
    address, [next_step] 1. *)
Theorem falsy_coordinates_count_as_missing
    (w : world) (sid query : string) (st : state) (s : Session.t) (f : Farmer.t)
    (la lo : float) :
  Py.truthy sid = true ->
  Py.truthy (Py.strip query) = true ->
  session_states st !! sid = Some s ->
  Db.get (Session.farmer_id s) (farmers st) = Some f ->
  (Session.step s = 2%Z ->
   geocode w (Farmer.address f) = Location la lo ->
   PyFloat.truthy la = false \/ PyFloat.truthy lo = false ->
   handle_conversation w (Some sid) (Some query) st
   = (put_session sid (reverted (Py.strip query) s) st,
      jsonify_reply (geocode_failed_text (Session.lang s))
        (translate_and_tts w (geocode_failed_text (Session.lang s)) (Session.lang s) sid) 1)
   /\ step_of sid (fst (handle_conversation w (Some sid) (Some query) st)) = Some 1%Z
   /\ farmers (fst (handle_conversation w (Some sid) (Some query) st)) = farmers st)
  /\ ((3 <= Session.step s)%Z ->
      Farmer.lat f = Some la ->
      PyFloat.truthy la = false ->
      handle_conversation w (Some sid) (Some query) st
      = (st, Ok (mkResponse 400 (Reply (address_needed_text (Session.lang s)) None 1)))).
Proof.
  intros Hsid Hq Hs Hf. split.
  - intros Hstep Hgeo Hfalsy.
    assert (Hrun := step_2_without_coordinates w sid query st s f Hsid Hq Hs Hstep Hf).
    unfold geocode_address in Hrun. rewrite Hgeo in Hrun. simpl in Hrun.
    rewrite Hrun.
    + cbn [fst]. unfold step_of. rewrite put_session_lookup. repeat split.
    + destruct Hfalsy as [-> | ->]; [reflexivity | apply andb_false_r].
  - intros Hstep Hlat Hfalsy.
    rewrite (handle_conversation_run _ _ _ _ _ Hsid Hq Hs).
    destruct (Z.eqb_spec (Session.step s) 1); [lia |].
    destruct (Z.eqb_spec (Session.step s) 2); [lia |].
    destruct (Z.leb_spec 3 (Session.step s)); [| lia].
    apply (handle_active_chat_no_latitude _ _ _ _ _ _ _ Hs Hf).
    rewrite Hlat. exact Hfalsy.
Qed.

Lemma falsy_coordinates_witness :
  step_of "s1"
    (fst (handle_conversation world_equator (Some "s1") (Some "yellow leaves")
            state_problem))
  = Some 1%Z
  /\ handle_conversation world_up (Some "s1") (Some "weather") state_equator
     = (state_equator,
        Ok (mkResponse 400 (Reply (address_needed_text "en") None 1))).
Proof.
  split.
  - destruct (falsy_coordinates_count_as_missing world_equator "s1" "yellow leaves"
                state_problem session_problem ravi_new 0%float 73.75%float
                eq_refl eq_refl eq_refl eq_refl) as [Hstep2 _].
    apply Hstep2; [reflexivity | reflexivity | left; reflexivity].
  - destruct (falsy_coordinates_count_as_missing world_up "s1" "weather"
                state_equator session_chat ravi_equator 0%float 0%float
                eq_refl eq_refl eq_refl eq_refl) as [_ Hchat].
    apply Hchat; [simpl; lia | reflexivity | reflexivity].
Defined.

(** ** Step 1 *)

Lemma handle_step_1_run w sid lang input st s :
  session_states st !! sid = Some s ->
  handle_step_1 w sid lang input st =
  let name := parsed_name (parse_parts input) in
  let address := parsed_address (parse_parts input) in
  let s' := Session.set_address address (Session.set_name name s) in
  match Db.filter_by_first name address (farmers st) with
  | Some f =>
      if Py.truthy_opt (Farmer.last_problem_summary f) then
        (put_session sid (Session.set_step 3 (Session.set_farmer_id (Farmer.id f) s')) st,
         jsonify_reply (welcome_back_problem_text lang f)
           (translate_and_tts w (welcome_back_problem_text lang f) lang sid) 3)
      else
        (put_session sid
           (Session.set_step 2
              (Session.set_step 3 (Session.set_farmer_id (Farmer.id f) s'))) st,
         jsonify_reply (welcome_back_text lang f)
           (translate_and_tts w (welcome_back_text lang f) lang sid) 2)
  | None =>
      let ident := Db.next_id (farmers st) in
      (mkState (<[sid := Session.set_farmer_id ident (Session.set_step 2 s')]>
                  (session_states st))
         (farmers st ++ [Db.new_farmer ident name address lang]),
       jsonify_reply (new_user_text lang name)
         (translate_and_tts w (new_user_text lang name) lang sid) 2)
  end.
Proof.
  intros Hs. unfold handle_step_1. cbv zeta.
  step_session.
  destruct (Db.filter_by_first _ _ (farmers st)) as [f|] eqn:Hfind.
  - step_session.
    destruct (Py.truthy_opt (Farmer.last_problem_summary f)); step_session; reflexivity.
  - step_session. unfold db_add. step_session. rewrite Hfind. step_session.
    unfold put_session. simpl. rewrite !insert_insert_eq. reflexivity.
Qed.

Lemma filter_by_first_some name address rows f :
  Db.filter_by_first name address rows = Some f ->
  Farmer.name f = name /\ Farmer.address f = address /\ In f rows.
Proof.
  unfold Db.filter_by_first. intros H. apply find_some in H as [Hin Hb].
  apply andb_prop in Hb as [Hn Ha].
  apply String.eqb_eq in Hn. apply String.eqb_eq in Ha. auto.
Qed.





(** ** Parsing the name and the address *)











(** ** Routing of follow-ups *)

Lemma tolower_idempotent c : Py.tolower (Py.tolower c) = Py.tolower c.
Proof. destruct c as [[] [] [] [] [] [] [] []]; reflexivity. Qed.

Lemma lower_idempotent s : Py.lower (Py.lower s) = Py.lower s.
Proof.
  induction s as [|c r IH]; [reflexivity |].
  cbn [Py.lower]. rewrite tolower_idempotent, IH. reflexivity.
Qed.

(** The chain of tests of [get_active_chat_response] is the priority
    search of [classify]. *)
Lemma get_active_chat_response_classify w sid farmer query_text lang :
  get_active_chat_response w sid farmer query_text lang
  = send w sid lang
      (answer w farmer lang
         (classify (Py.truthy_opt (Farmer.last_problem_summary farmer)) query_text)).
Proof.
  unfold get_active_chat_response, send, classify, priority, passes, mentions,
    keywords, allowed.
  cbn [find existsb]. rewrite !orb_false_r, !andb_true_r, !orb_assoc.
  destruct ((_ || _ || _ || _) && _); [reflexivity |].
  destruct (_ || _ || _ || _); [reflexivity |].
  destruct (_ || _ || _); [reflexivity |].
  destruct (_ || _); reflexivity.
Qed.




(** ** The stored step over sequences of requests *)

Section Keeps.

Variable P : state -> Prop.

Lemma keeps_ret {A : Type} (a : A) : keeps P (mret a : M A).
Proof. intros st H. exact H. Qed.

Lemma keeps_raise {A : Type} (e : exn) : keeps P (raise e : M A).
Proof. intros st H. exact H. Qed.

Lemma keeps_lift {A : Type} (r : res A) : keeps P (lift r).
Proof. intros st H. exact H. Qed.

Lemma keeps_read : keeps P read.
Proof. intros st H. exact H. Qed.

Lemma keeps_bind {A B : Type} (m : M A) (k : A -> M B) :
  keeps P m -> (forall a, keeps P (k a)) -> keeps P (m ≫= k).
Proof.
  intros Hm Hk st H. rewrite bind_run. specialize (Hm st H).
  destruct (m st) as [st' [a|e]]; simpl in Hm; [apply Hk, Hm | exact Hm].
Qed.

End Keeps.

Lemma keeps_update_session sid f :
  (forall s, step_in_range s -> step_in_range (f s)) ->
  keeps steps_in_range (update_session sid f).
Proof.
  intros Hf st H. unfold update_session. rewrite bind_run, read_run.
  destruct (session_states st !! sid) as [s|] eqn:Hs; [| exact H].
  rewrite write_run. cbn [fst]. intros sid' s'. cbn [session_states].
  rewrite lookup_insert. case_decide.
  - intros [= <-]. apply Hf, (H sid), Hs.
  - apply H.
Qed.

Lemma keeps_session_of sid : keeps steps_in_range (session_of sid).
Proof.
  intros st H. unfold session_of. rewrite bind_run, read_run.
  destruct (session_states st !! sid); exact H.
Qed.

Lemma keeps_get_session_data sid : keeps steps_in_range (get_session_data sid).
Proof.
  intros st H. rewrite get_session_data_run. cbn [fst].
  intros sid' s'. unfold put_session. cbn [session_states].
  rewrite lookup_insert. case_decide; [| apply H].
  intros [= <-]. destruct (session_states st !! sid) as [s|] eqn:Hs; simpl.
  - apply (H sid), Hs.
  - unfold step_in_range. simpl. lia.
Qed.

Lemma keeps_commit rows : keeps steps_in_range (commit rows).
Proof. intros st H. exact H. Qed.

Lemma keeps_db_add name address language :
  keeps steps_in_range (db_add name address language).
Proof.
  intros st H. unfold db_add. rewrite bind_run, read_run.
  destruct (Db.filter_by_first _ _ _); exact H.
Qed.

Lemma set_step_in_range v s : (0 <= v <= 4)%Z -> step_in_range (Session.set_step v s).
Proof. intros Hv. exact Hv. Qed.

Ltac keep_step :=
  repeat first
    [ progress cbv zeta
    | apply keeps_ret | apply keeps_raise | apply keeps_lift | apply keeps_read
    | apply keeps_session_of | apply keeps_get_session_data
    | apply keeps_commit | apply keeps_db_add
    | apply keeps_update_session;
        intros ? ?; first [assumption | apply set_step_in_range; lia]
    | apply keeps_bind; [| intros ?]
    | match goal with
      | |- keeps _ (match ?x with _ => _ end) => destruct x
      | |- keeps _ (let '(_, _) := ?x in _) => destruct x
      end ].

Lemma keeps_get_api_advice w sid lat lon problem_text lang :
  keeps steps_in_range (get_api_advice w sid lat lon problem_text lang).
Proof. unfold get_api_advice. keep_step. Qed.

Lemma keeps_start_session w session_id lang :
  keeps steps_in_range (start_session w session_id lang).
Proof. unfold start_session. keep_step. Qed.

Lemma keeps_handle_conversation w session_id query :
  keeps steps_in_range (handle_conversation w session_id query).
Proof.
  unfold handle_conversation, handle_step_1, handle_step_2, handle_active_chat,
    get_active_chat_response.
  keep_step; apply keeps_get_api_advice.
Qed.

Lemma keeps_handle w r : keeps steps_in_range (handle w r).
Proof.
  destruct r; [apply keeps_start_session | apply keeps_handle_conversation].
Qed.

(** Whatever the requests and the worlds they meet, the stored steps stay
    in 0..4. *)
Lemma run_steps_in_range trace st :
  steps_in_range st -> steps_in_range (run trace st).
Proof.
  revert st. induction trace as [|[w r] trace IH]; intros st H; [exact H |].
  apply IH, keeps_handle, H.
Qed.

Lemma steps_in_range_no_session rows : steps_in_range (mkState ∅ rows).
Proof. intros sid s H. simpl in H. rewrite lookup_empty in H. discriminate. Qed.

(** The successful run: a new farmer, a geocoded address, providers that
    return; the stored step goes 1, 2, 4. *)
Lemma happy_path_steps :
  let st1 := run [(world_up, StartSession (Some "s1") (Some "en"))] state_empty in
  let st2 := run [(world_up, Chat (Some "s1") (Some "Ravi, Pune"))] st1 in
  let st3 := run [(world_up, Chat (Some "s1") (Some "my wheat leaves are yellow"))] st2 in
  let st4 := run [(world_up, Chat (Some "s1") (Some "market price"))] st3 in
  step_of "s1" st1 = Some 1%Z /\ step_of "s1" st2 = Some 2%Z
  /\ step_of "s1" st3 = Some 4%Z /\ step_of "s1" st4 = Some 4%Z
  /\ farmers st3 = [ravi_located].
Proof. vm_compute. repeat split. Qed.

(** On a step-2 turn whose session points at no row, the reply carries
    [next_step] 1 and the stored step is the 3 written at the start of the
    branch. *)
Lemma missing_identity_keeps_step_3 w sid query st s :
  Py.truthy sid = true ->
  Py.truthy (Py.strip query) = true ->
  session_states st !! sid = Some s ->
  Session.step s = 2%Z ->
  Db.get (Session.farmer_id s) (farmers st) = None ->
  step_of sid (fst (handle_conversation w (Some sid) (Some query) st)) = Some 3%Z.
Proof.
  intros Hsid Hq Hs Hstep Hf.
  rewrite (handle_conversation_run _ _ _ _ _ Hsid Hq Hs), Hstep.
  change (2 =? 1)%Z with false. change (2 =? 2)%Z with true. cbv iota.
  rewrite (handle_step_2_run _ _ _ _ _ _ Hs), Hf. cbn [fst].
  unfold step_of. rewrite put_session_lookup. reflexivity.
Qed.

(** On a turn at step 3 or more whose farmer has no usable latitude, the
    reply carries [next_step] 1 and the stored step does not move. *)
Lemma missing_coordinates_keep_step w sid query st s f :
  Py.truthy sid = true ->
  Py.truthy (Py.strip query) = true ->
  session_states st !! sid = Some s ->
  (3 <= Session.step s)%Z ->
  Db.get (Session.farmer_id s) (farmers st) = Some f ->
  PyFloat.truthy_opt (Farmer.lat f) = false ->
  handle_conversation w (Some sid) (Some query) st
  = (st, Ok (mkResponse 400 (Reply (address_needed_text (Session.lang s)) None 1)))
  /\ step_of sid (fst (handle_conversation w (Some sid) (Some query) st))
     = Some (Session.step s).
Proof.
  intros Hsid Hq Hs Hstep Hf Hlat.
  assert (Hrun : handle_conversation w (Some sid) (Some query) st
                 = (st, Ok (mkResponse 400
                              (Reply (address_needed_text (Session.lang s)) None 1)))).
  { rewrite (handle_conversation_run _ _ _ _ _ Hsid Hq Hs).
    destruct (Z.eqb_spec (Session.step s) 1); [lia |].
    destruct (Z.eqb_spec (Session.step s) 2); [lia |].
    destruct (Z.leb_spec 3 (Session.step s)); [| lia].
    apply (handle_active_chat_no_latitude _ _ _ _ _ _ _ Hs Hf Hlat). }
  split; [exact Hrun |]. rewrite Hrun. unfold step_of. cbn [fst]. rewrite Hs.
  reflexivity.
Qed.

(** C1, on the inputs where the code departs from it.  A farmer whose
    row has a problem summary and no coordinates starts a session and
    gives name and address: the stored step is 3.  The next turn takes
    the missing-coordinates edge: the reply says [next_step] 1, the
    stored step is still 3, not 1.  The missing-identity edge of step 2
    does the same: the reply says [next_step] 1, the stored step is 3. *)
Theorem reversion_edges_keep_the_stored_step :
  let st2 := run [(world_up, StartSession (Some "s1") (Some "en"));
                  (world_up, Chat (Some "s1") (Some "Ravi, Pune"))] state_legacy in
  let turn := handle_conversation world_up (Some "s1") (Some "weather") st2 in
  let orphan := handle_conversation world_up (Some "s1") (Some "yellow leaves")
                  state_orphan in
  step_of "s1" st2 = Some 3%Z
  /\ snd turn
     = Ok (mkResponse 400
             (Reply "Please provide your address so I can retrieve location-based data."
                None 1))
  /\ step_of "s1" (fst turn) = Some 3%Z
  /\ step_of "s1" state_orphan = Some 2%Z
  /\ snd orphan
     = Ok (mkResponse 200
             (Reply "Internal error: Farmer record not found."
                (Some "/audio/audio/response_s1.mp3") 1))
  /\ step_of "s1" (fst orphan) = Some 3%Z.
Proof. vm_compute. repeat split. Qed.

(** ** The effect of a request on the state *)

(** An accepted chat request first makes sure its session is stored, then
    dispatches on the stored step. *)
Lemma handle_conversation_dispatch w sid query st :
  Py.truthy sid = true ->
  Py.truthy (Py.strip query) = true ->
  let s := default Session.fresh (session_states st !! sid) in
  handle_conversation w (Some sid) (Some query) st =
  (if (Session.step s =? 1)%Z then handle_step_1 w sid (Session.lang s) (Py.strip query)
   else if (Session.step s =? 2)%Z then handle_step_2 w sid (Session.lang s) (Py.strip query)
   else if (3 <=? Session.step s)%Z then
     handle_active_chat w sid (Session.lang s) (Py.strip query)
   else mret (mkResponse 400 (ErrorBody "Invalid conversation step.")))
    (put_session sid s st).
Proof.
  intros Hsid Hq s. unfold handle_conversation. simpl. rewrite Hsid, Hq. simpl.
  rewrite bind_run, get_session_data_run. reflexivity.
Qed.

Lemma put_session_states sid s st :
  session_states (put_session sid s st) = <[sid := s]> (session_states st).
Proof. reflexivity. Qed.

Lemma put_session_put sid s s' st rows :
  mkState (<[sid := s']> (session_states (put_session sid s st))) rows
  = mkState (<[sid := s']> (session_states st)) rows.
Proof. rewrite put_session_states, insert_insert_eq. reflexivity. Qed.

(** Every accepted chat turn is one of the transitions of [turn], on the
    dictionary of its session and the table, and touches nothing else. *)
Lemma chat_turn w sid query st :
  Py.truthy sid = true ->
  Py.truthy (Py.strip query) = true ->
  exists s' rows',
    turn (farmers st) (default Session.fresh (session_states st !! sid)) s' rows'
    /\ fst (handle_conversation w (Some sid) (Some query) st)
       = mkState (<[sid := s']> (session_states st)) rows'.
Proof.
  intros Hsid Hq. rewrite (handle_conversation_dispatch _ _ _ _ Hsid Hq). cbv zeta.
  set (s := default Session.fresh (session_states st !! sid)).
  assert (Hs : session_states (put_session sid s st) !! sid = Some s)
    by apply put_session_lookup.
  destruct (Z.eqb_spec (Session.step s) 1) as [H1 | H1].
  { rewrite (handle_step_1_run _ _ _ _ _ _ Hs). cbv zeta. rewrite put_session_farmers.
    destruct (Db.filter_by_first _ _ (farmers st)) as [f|] eqn:Hfind.
    - destruct (Py.truthy_opt (Farmer.last_problem_summary f)) eqn:Hsum;
        cbn [fst]; rewrite put_session_twice; eexists _, _; (split; [| reflexivity]).
      + eapply turn_recap; eassumption.
      + eapply turn_welcome; eassumption.
    - cbn [fst]. rewrite put_session_put. eexists _, _. split; [| reflexivity].
      eapply turn_register; eassumption. }
  destruct (Z.eqb_spec (Session.step s) 2) as [H2 | H2].
  { rewrite (handle_step_2_run _ _ _ _ _ _ Hs). cbv zeta. rewrite put_session_farmers.
    destruct (Db.get (Session.farmer_id s) (farmers st)) as [f|] eqn:Hget.
    - unfold geocode_address. destruct (geocode w (Farmer.address f)) as [la lo| |].
      + cbn [PyFloat.truthy_opt].
        destruct (PyFloat.truthy la) eqn:Hla; [destruct (PyFloat.truthy lo) eqn:Hlo |];
          cbn [andb].
        * rewrite put_session_put.
          erewrite get_api_advice_run by (cbn [session_states]; apply lookup_insert_eq).
          destruct (get_current_weather _ _ _ _) as [weather_info|e];
            [destruct (get_soil_data _ _ _ _) as [soil_info|e] | ]; cbn [fst].
          -- unfold put_session. cbn [session_states farmers].
             rewrite insert_insert_eq. eexists _, _. split; [| reflexivity].
             apply (turn_advised _ _ (Py.strip query) f la lo 4%Z); auto.
          -- eexists _, _. split; [| reflexivity].
             apply (turn_advised _ _ (Py.strip query) f la lo 3%Z); auto.
          -- eexists _, _. split; [| reflexivity].
             apply (turn_advised _ _ (Py.strip query) f la lo 3%Z); auto.
        * cbn [fst]. rewrite put_session_twice. eexists _, _. split; [| reflexivity].
          eapply turn_ungeocoded; eassumption.
        * cbn [fst]. rewrite put_session_twice. eexists _, _. split; [| reflexivity].
          eapply turn_ungeocoded; eassumption.
      + cbn [fst PyFloat.truthy_opt andb]. rewrite put_session_twice.
        eexists _, _. split; [| reflexivity]. eapply turn_ungeocoded; eassumption.
      + cbn [fst PyFloat.truthy_opt andb]. rewrite put_session_twice.
        eexists _, _. split; [| reflexivity]. eapply turn_ungeocoded; eassumption.
    - cbn [fst]. rewrite put_session_twice. eexists _, _. split; [| reflexivity].
      eapply turn_orphan; eassumption. }
  assert (Hidle : forall m : M response,
            (forall st0, fst (m st0) = st0) ->
            exists s' rows',
              turn (farmers st) s s' rows'
              /\ fst (m (put_session sid s st))
                 = mkState (<[sid := s']> (session_states st)) rows').
  { intros m Hm. exists s, (farmers st). split; [apply turn_idle; assumption |].
    rewrite Hm. reflexivity. }
  destruct (3 <=? Session.step s)%Z; apply Hidle; intros st0.
  - apply handle_active_chat_state.
  - reflexivity.
Qed.

(** Every request has one of the three effects. *)
Lemma handle_effect w r st : effect st (fst (handle w r st)).
Proof.
  destruct r as [session_id lang | session_id query]; simpl.
  - destruct (Py.truthy_opt session_id) eqn:Hsid.
    + apply truthy_opt_some in Hsid as (sid & -> & Hsid).
      rewrite (start_session_run _ _ _ _ Hsid). apply effect_start.
    + unfold start_session. rewrite Hsid. apply effect_none.
  - destruct (Py.truthy_opt session_id) eqn:Hsid;
      [destruct (Py.truthy (Py.strip (default "" query))) eqn:Hq |].
    + apply truthy_opt_some in Hsid as (sid & -> & Hsid).
      assert (Hquery : handle_conversation w (Some sid) query st
                       = handle_conversation w (Some sid) (Some (default "" query)) st)
        by (destruct query; reflexivity).
      rewrite Hquery.
      destruct (chat_turn w sid (default "" query) st Hsid Hq) as (s' & rows' & Ht & ->).
      apply effect_turn, Ht.
    + unfold handle_conversation. rewrite Hq, orb_true_r. apply effect_none.
    + unfold handle_conversation. rewrite Hsid. apply effect_none.
Qed.

(** ** The table under the transitions *)

Lemma next_id_above rows g : In g rows -> Farmer.id g < Db.next_id rows.
Proof.
  unfold Db.next_id. induction rows as [|h rows IH]; simpl; [intros [] |].
  intros [-> | Hin]; [lia |]. specialize (IH Hin). lia.
Qed.

Lemma get_some ident rows f :
  Db.get ident rows = Some f -> ident = Some (Farmer.id f) /\ In f rows.
Proof.
  destruct ident as [i|]; [| discriminate]. simpl. intros H.
  apply find_some in H as [Hin Hid]. apply Nat.eqb_eq in Hid. subst i. auto.
Qed.

Lemma same_id_same_row rows f g :
  List.NoDup (map Farmer.id rows) -> In f rows -> In g rows ->
  Farmer.id f = Farmer.id g -> f = g.
Proof.
  induction rows as [|h rows IH]; simpl; [intros _ [] |].
  intros Hnd Hf Hg Hid. apply NoDup_cons_iff in Hnd as [Hnotin Hnd].
  destruct Hf as [-> | Hf], Hg as [-> | Hg]; auto.
  - exfalso. apply Hnotin. rewrite Hid. apply in_map, Hg.
  - exfalso. apply Hnotin. rewrite <- Hid. apply in_map, Hf.
Qed.

(** With unique ids a row is found again by its id. *)
Lemma get_of_row rows f :
  List.NoDup (map Farmer.id rows) -> In f rows ->
  Db.get (Some (Farmer.id f)) rows = Some f.
Proof.
  intros Hnd Hin. simpl.
  destruct (find _ rows) as [g|] eqn:Hfind.
  - apply find_some in Hfind as [Hg Hid]. apply Nat.eqb_eq in Hid.
    f_equal. symmetry. exact (same_id_same_row rows f g Hnd Hin Hg (eq_sym Hid)).
  - exfalso. pose proof (find_none _ _ Hfind f Hin) as H. simpl in H.
    rewrite Nat.eqb_refl in H. discriminate.
Qed.


Lemma get_app_new rows f :
  (forall g, In g rows -> Farmer.id g <> Farmer.id f) ->
  Db.get (Some (Farmer.id f)) (rows ++ [f]) = Some f.
Proof.
  simpl. induction rows as [|g rows IH]; simpl; intros Hfresh.
  - rewrite Nat.eqb_refl. reflexivity.
  - destruct (Nat.eqb_spec (Farmer.id g) (Farmer.id f)) as [E | _].
    + exfalso. exact (Hfresh g (or_introl eq_refl) E).
    + apply IH. intros h Hh. apply Hfresh. right. exact Hh.
Qed.



(** A commit changes nothing a function cannot tell apart on the row. *)
Lemma map_update {A : Type} (h : Farmer.t -> A) rows f f' :
  List.NoDup (map Farmer.id rows) -> In f rows ->
  Farmer.id f' = Farmer.id f -> h f' = h f ->
  map h (Db.update f' rows) = map h rows.
Proof.
  intros Hnd Hin Hid Hh. unfold Db.update. rewrite map_map.
  apply map_ext_in. intros g Hg.
  destruct (Nat.eqb_spec (Farmer.id g) (Farmer.id f')) as [E | _]; [| reflexivity].
  rewrite Hh. f_equal. apply (same_id_same_row rows f g Hnd Hin Hg). congruence.
Qed.


Lemma filter_by_first_none_key name address rows :
  Db.filter_by_first name address rows = None ->
  ~ In (name, address) (map key rows).
Proof.
  intros Hnone Hin. apply in_map_iff in Hin as (g & Hkey & Hg).
  pose proof (find_none _ _ Hnone g Hg) as H. simpl in H.
  injection Hkey as Hn Ha. rewrite Hn, Ha, !String.eqb_refl in H. discriminate.
Qed.

Lemma nodup_snoc {A : Type} (l : list A) (x : A) :
  List.NoDup l -> ~ In x l -> List.NoDup (l ++ [x]).
Proof.
  intros Hnd Hx. apply List.NoDup_app; auto.
  - apply List.NoDup_cons; [intros [] | constructor].
  - intros y Hy [<- | []]. exact (Hx Hy).
Qed.

(** The transitions keep the primary key and the unique constraint, and
    keep every row, with its id, name, address and language, in place. *)
Lemma turn_table rows s s' rows' :
  table_ok rows -> turn rows s s' rows' ->
  table_ok rows'
  /\ exists added, map registration rows' = (map registration rows ++ added)%list
                   /\ length added <= 1.
Proof.
  intros [Hid Hkey] Ht.
  assert (Hsame : table_ok rows
                  /\ exists added,
                       map registration rows = (map registration rows ++ added)%list
                       /\ length added <= 1).
  { split; [split; assumption |]. exists []. rewrite app_nil_r. auto. }
  destruct Ht as [ | | | name address Hstep Hnone | | | problem_text f la lo k Hstep Hget];
    try exact Hsame.
  - split; [split |].
    + rewrite map_app. apply nodup_snoc; [exact Hid |]. simpl.
      intros Hin. apply in_map_iff in Hin as (g & Hg & Hin).
      apply next_id_above in Hin. lia.
    + rewrite map_app. apply nodup_snoc; [exact Hkey |].
      apply filter_by_first_none_key, Hnone.
    + eexists. rewrite map_app. split; [reflexivity | simpl; lia].
  - apply get_some in Hget as [_ Hin]. split; [split |].
    + rewrite (map_update Farmer.id rows f); auto.
    + rewrite (map_update key rows f); auto.
    + exists []. rewrite app_nil_r, (map_update registration rows f); auto.
Qed.



Lemma effect_table st st' :
  table_ok (farmers st) -> effect st st' ->
  table_ok (farmers st')
  /\ exists added,
       map registration (farmers st')
       = (map registration (farmers st) ++ added)%list
       /\ length added <= 1.
Proof.
  intros Htab He. destruct He as [ | sid lang | sid s' rows' Ht].
  - split; [exact Htab |]. exists []. rewrite app_nil_r. auto.
  - split; [exact Htab |]. exists []. rewrite app_nil_r. auto.
  - apply (turn_table _ _ _ _ Htab Ht).
Qed.

Lemma consistent_no_session : consistent state_empty.
Proof.
  split; [split; constructor |]. split; [intros f [] |].
  intros sid s H. simpl in H. rewrite lookup_empty in H. discriminate.
Qed.

(** ** Properties of the engine beyond the claims *)

(** X1: a chat request for a session id the process has not seen is
    refused with status 400 and [Invalid conversation step.]; the table is
    untouched, but the session is created, at step 0, as a side effect of
    the lookup. *)
Theorem chat_before_start (w : world) (sid query : string) (st : state) :
  Py.truthy sid = true ->
  Py.truthy (Py.strip query) = true ->
  session_states st !! sid = None ->
  handle_conversation w (Some sid) (Some query) st
  = (put_session sid Session.fresh st,
     Ok (mkResponse 400 (ErrorBody "Invalid conversation step."))).
Proof.
  intros Hsid Hq Hnone.
  rewrite (handle_conversation_dispatch _ _ _ _ Hsid Hq), Hnone. reflexivity.
Qed.

Lemma chat_before_start_witness :
  handle_conversation world_up (Some "s1") (Some "Ravi, Pune") state_empty
  = (put_session "s1" Session.fresh state_empty,
     Ok (mkResponse 400 (ErrorBody "Invalid conversation step."))).
Proof.
  apply (chat_before_start world_up "s1" "Ravi, Pune" state_empty); reflexivity.
Defined.

(** X2: an accepted chat turn moves the stored step of its session along
    one of the edges 1 to 2, 1 to 3, 2 to 1, 2 to 3, 2 to 4, or leaves it
    where it is when it is neither 1 nor 2; an unseen session counts as
    step 0.  In particular a chat turn never leaves step 3 or 4, and only
    step 2 leads to 4. *)
Theorem chat_moves_along_edges (w : world) (sid query : string) (st : state) :
  Py.truthy sid = true ->
  Py.truthy (Py.strip query) = true ->
  exists s',
    session_states (fst (handle_conversation w (Some sid) (Some query) st)) !! sid
    = Some s'
    /\ chat_edge (Session.step (default Session.fresh (session_states st !! sid)))
         (Session.step s').
Proof.
  intros Hsid Hq. destruct (chat_turn w sid query st Hsid Hq) as (s' & rows' & Ht & ->).
  exists s'. cbn [session_states]. rewrite lookup_insert_eq. split; [reflexivity |].
  unfold chat_edge.
  destruct Ht as [ Hn1 Hn2 | ? ? ? Hstep | ? ? ? Hstep | ? ? Hstep | ? Hstep
                 | ? ? Hstep | ? ? ? ? k Hstep ? ? ? Hk ];
    cbn [Session.step Session.set_step Session.set_farmer_id reverted]; try lia.
Qed.

Lemma chat_moves_along_edges_witness :
  exists s',
    session_states
      (fst (handle_conversation world_up (Some "s1") (Some "yellow leaves")
              state_problem)) !! "s1"
    = Some s'
    /\ chat_edge 2 (Session.step s').
Proof.
  apply (chat_moves_along_edges world_up "s1" "yellow leaves" state_problem);
    reflexivity.
Defined.

(** X3: a request changes no session but the one whose id it carries:
    every other session id is looked up with the same result after the
    request as before, whether it is known or not. *)
Theorem requests_touch_one_session
    (w : world) (r : request) (st : state) (other : string) :
  addressed r <> Some other ->
  session_states (fst (handle w r st)) !! other = session_states st !! other.
Proof.
  intros Hother.
  destruct r as [session_id lang | session_id query]; simpl in *.
  - destruct (Py.truthy_opt session_id) eqn:Hsid.
    + apply truthy_opt_some in Hsid as (sid & -> & Hsid).
      rewrite (start_session_run _ _ _ _ Hsid). cbn [fst]. rewrite put_session_states.
      apply lookup_insert_ne. congruence.
    + unfold start_session. rewrite Hsid. reflexivity.
  - destruct (Py.truthy_opt session_id) eqn:Hsid;
      [destruct (Py.truthy (Py.strip (default "" query))) eqn:Hq |].
    + apply truthy_opt_some in Hsid as (sid & -> & Hsid).
      assert (Hquery : handle_conversation w (Some sid) query st
                       = handle_conversation w (Some sid) (Some (default "" query)) st)
        by (destruct query; reflexivity).
      rewrite Hquery.
      destruct (chat_turn w sid (default "" query) st Hsid Hq) as (s' & rows' & _ & ->).
      cbn [session_states]. apply lookup_insert_ne. congruence.
    + unfold handle_conversation. rewrite Hq, orb_true_r. reflexivity.
    + unfold handle_conversation. rewrite Hsid. reflexivity.
Qed.

Lemma requests_touch_one_session_witness :
  session_states
    (fst (handle world_up (Chat (Some "s2") (Some "hello")) state_chat)) !! "s1"
  = session_states state_chat !! "s1".
Proof.
  apply (requests_touch_one_session world_up (Chat (Some "s2") (Some "hello"))
           state_chat "s1").
  discriminate.
Defined.

(** X4: the primary key and the unique constraint on (name, address)
    survive every sequence of requests: if no two rows share an id and no
    two rows share a (name, address) pair, the same holds afterwards.  The
    handler never commits a second row for a pair. *)
Theorem table_constraints_hold (trace : list (world * request)) (st : state) :
  table_ok (farmers st) -> table_ok (farmers (run trace st)).
Proof.
  revert st. induction trace as [|[w r] trace IH]; intros st H; [exact H |].
  apply IH. exact (proj1 (effect_table _ _ H (handle_effect w r st))).
Qed.

Lemma table_constraints_hold_witness :
  table_ok
    (farmers
       (run [(world_up, StartSession (Some "s1") (Some "en"));
             (world_up, Chat (Some "s1") (Some "Ravi, Pune"));
             (world_up, StartSession (Some "s2") (Some "en"));
             (world_up, Chat (Some "s2") (Some "ravi, pune"))] state_empty)).
Proof.
  apply (table_constraints_hold _ state_empty). split; constructor.
Defined.

(** X5: rows are never deleted and never renamed.  After any sequence of
    requests on a table that satisfies its constraints, the rows that were
    there are still there, in the same order, with the same id, name,
    address and language; a request adds at most one row, at the end. *)
Theorem rows_are_never_removed (trace : list (world * request)) (st : state) :
  table_ok (farmers st) ->
  exists added,
    map registration (farmers (run trace st))
    = (map registration (farmers st) ++ added)%list
    /\ length added <= length trace.
Proof.
  revert st. induction trace as [|[w r] trace IH]; intros st H.
  - exists []. rewrite app_nil_r. auto.
  - destruct (effect_table _ _ H (handle_effect w r st)) as (H' & a1 & E1 & L1).
    destruct (IH _ H') as (a2 & E2 & L2).
    exists (a1 ++ a2)%list. cbn [run]. rewrite E2, E1, <- app_assoc.
    split; [reflexivity |]. rewrite length_app. simpl. lia.
Qed.

Lemma rows_are_never_removed_witness :
  exists added,
    map registration
      (farmers (run [(world_up, Chat (Some "s1") (Some "yellow leaves"))] state_problem))
    = (map registration (farmers state_problem) ++ added)%list
    /\ length added <= 1.
Proof.
  apply (rows_are_never_removed [(world_up, Chat (Some "s1") (Some "yellow leaves"))]
           state_problem).
  split; repeat constructor; intros [].
Defined.





(** X8: when the speech file cannot be written, [translate_and_tts]
    returns [None] and the reply that reads [audio_path.replace] raises an
    [AttributeError]: the request ends as a server error although the
    state has already changed.  [start_session] has stored step 1, and a
    step-1 turn has stored name, address and the next step. *)
Theorem speech_failure_is_a_server_error
    (w : world) (sid query : string) (lang : option string) (st : state) :
  Py.truthy sid = true ->
  (forall text tts_lang path, gtts_save w text tts_lang path = false) ->
  start_session w (Some sid) lang st
  = (put_session sid (started lang (default Session.fresh (session_states st !! sid))) st,
     Raise AttributeError)
  /\ (Py.truthy (Py.strip query) = true ->
      Session.step (default Session.fresh (session_states st !! sid)) = 1%Z ->
      snd (handle_conversation w (Some sid) (Some query) st) = Raise AttributeError
      /\ exists s',
           session_states (fst (handle_conversation w (Some sid) (Some query) st)) !! sid
           = Some s'
           /\ (Session.step s' = 2%Z \/ Session.step s' = 3%Z)
           /\ Session.name s' = Some (parsed_name (parse_parts (Py.strip query)))).
Proof.
  intros Hsid Hmute.
  assert (Htts : forall text l, translate_and_tts w text l sid = None).
  { intros text l. unfold translate_and_tts. rewrite Hmute. reflexivity. }
  split.
  - rewrite (start_session_run _ _ _ _ Hsid), Htts. reflexivity.
  - intros Hq Hstep.
    rewrite (handle_conversation_dispatch _ _ _ _ Hsid Hq). cbv zeta.
    rewrite Hstep. change (1 =? 1)%Z with true. cbv iota.
    erewrite handle_step_1_run by apply put_session_lookup. cbv zeta.
    destruct (Db.filter_by_first _ _ _) as [f|];
      [destruct (Py.truthy_opt _) |];
      rewrite Htts;
      cbn [fst snd session_states put_session]; rewrite lookup_insert_eq;
      (split; [reflexivity |]); eexists; (split; [reflexivity |]);
      cbn; auto.
Qed.

Lemma speech_failure_is_a_server_error_witness :
  start_session world_mute (Some "s1") (Some "en") state_empty
  = (state_started, Raise AttributeError).
Proof.
  destruct (speech_failure_is_a_server_error world_mute "s1" "" (Some "en") state_empty
              eq_refl (fun _ _ _ => eq_refl)) as [H _].
  exact H.
Defined.

(** X9: the language is a two-way switch with different tests for text
    and voice.  Texts are Hindi exactly when the language is [hi]; the
    voice is English exactly when it is [en].  A session started with any
    other language stores that language, is welcomed with the English
    text, and has it rendered by the Hindi voice. *)
Theorem other_language_mixes_text_and_voice
    (w : world) (sid lang : string) (st : state) :
  Py.truthy sid = true ->
  lang <> "hi" -> lang <> "en" ->
  let path := "static/audio/response_" +:+ sid +:+ ".mp3" in
  let out := start_session w (Some sid) (Some lang) st in
  Session.lang <$> session_states (fst out) !! sid = Some lang
  /\ snd out
     = jsonify_reply (welcome_text "en")
         (if gtts_save w (welcome_text "en") "hi" path then Some path else None) 1.
Proof.
  intros Hsid Hhi Hen path out. subst out.
  rewrite (start_session_run _ _ _ _ Hsid). cbn [fst snd].
  change (default "hi" (Some lang)) with lang.
  rewrite put_session_lookup. split; [reflexivity |].
  unfold translate_and_tts, welcome_text, is_hi.
  apply String.eqb_neq in Hhi. apply String.eqb_neq in Hen. rewrite Hhi, Hen.
  reflexivity.
Qed.

Lemma other_language_mixes_text_and_voice_witness :
  Session.lang
  <$> session_states (fst (start_session world_up (Some "s1") (Some "fr") state_empty))
      !! "s1"
  = Some "fr".
Proof.
  apply (other_language_mixes_text_and_voice world_up "s1" "fr" state_empty);
    [reflexivity | discriminate | discriminate].
Defined.

Lemma replace_absent old new s :
  Py.contains old s = false -> Py.replace old new s = s.
Proof.
  unfold Py.replace. induction s as [|c r IH]; [reflexivity |].
  cbn [Py.contains Py.replace_from]. intros H.
  apply orb_false_elim in H as [Hp Hr]. rewrite Hp, (IH Hr). reflexivity.
Qed.

(** X10: the audio URL of a reply.  Replacing [static/] by [/audio/] in
    the path [static/audio/response_<id>.mp3] keeps the directory
    [audio/] of the path, so every URL starts with
    [/audio/audio/response_]; the replacement also runs over the session
    id, and the URL ends in [<id>.mp3] as given only when that part holds
    no [static/]. *)
Theorem audio_url_of_reply
    (w : world) (text lang sid : string) (next_step : Z) :
  translate_and_tts w text lang sid <> None ->
  jsonify_reply text (translate_and_tts w text lang sid) next_step
  = Ok (mkResponse 200
          (Reply text
             (Some ("/audio/audio/response_"
                    +:+ Py.replace "static/" "/audio/" (sid +:+ ".mp3")))
             next_step))
  /\ (Py.contains "static/" (sid +:+ ".mp3") = false ->
      jsonify_reply text (translate_and_tts w text lang sid) next_step
      = Ok (mkResponse 200
              (Reply text (Some ("/audio/audio/response_" +:+ sid +:+ ".mp3"))
                 next_step))).
Proof.
  unfold translate_and_tts. destruct (gtts_save w _ _ _); [| congruence].
  intros _.
  assert (H : jsonify_reply text (Some ("static/audio/response_" +:+ sid +:+ ".mp3"))
                next_step
              = Ok (mkResponse 200
                      (Reply text
                         (Some ("/audio/audio/response_"
                                +:+ Py.replace "static/" "/audio/" (sid +:+ ".mp3")))
                         next_step))) by reflexivity.
  split; [exact H |]. intros Habsent. rewrite H, (replace_absent _ _ _ Habsent).
  reflexivity.
Qed.

Lemma audio_url_of_reply_witness :
  jsonify_reply "ok" (translate_and_tts world_up "ok" "en" "static/7") 4
  = Ok (mkResponse 200 (Reply "ok" (Some "/audio/audio/response_/audio/7.mp3") 4)).
Proof.
  destruct (audio_url_of_reply world_up "ok" "en" "static/7" 4) as [H _];
    [discriminate | exact H].
Defined.

(** ** Letter case in the name and the address *)

Lemma isspace_tolower c : Py.isspace (Py.tolower c) = Py.isspace c.
Proof. destruct c as [[] [] [] [] [] [] [] []]; reflexivity. Qed.

Lemma comma_tolower c : Ascii.eqb (Py.tolower c) "," = Ascii.eqb c ",".
Proof. destruct c as [[] [] [] [] [] [] [] []]; reflexivity. Qed.

Lemma truthy_lower s : Py.truthy (Py.lower s) = Py.truthy s.
Proof. destruct s; reflexivity. Qed.

Lemma lower_lstrip s : Py.lstrip (Py.lower s) = Py.lower (Py.lstrip s).
Proof.
  induction s as [|c r IH]; [reflexivity |].
  cbn [Py.lower Py.lstrip]. rewrite isspace_tolower.
  destruct (Py.isspace c); [exact IH | reflexivity].
Qed.

Lemma lower_rstrip s : Py.rstrip (Py.lower s) = Py.lower (Py.rstrip s).
Proof.
  induction s as [|c r IH]; [reflexivity |].
  cbn [Py.lower Py.rstrip]. rewrite isspace_tolower, IH, truthy_lower.
  destruct (Py.isspace c && negb (Py.truthy (Py.rstrip r))); reflexivity.
Qed.

Lemma lower_strip s : Py.strip (Py.lower s) = Py.lower (Py.strip s).
Proof. unfold Py.strip. rewrite lower_lstrip, lower_rstrip. reflexivity. Qed.

Lemma lower_split_on s :
  Py.split_on "," (Py.lower s) = map Py.lower (Py.split_on "," s).
Proof.
  induction s as [|c r IH]; [reflexivity |].
  cbn [Py.lower Py.split_on]. rewrite comma_tolower, IH.
  destruct (Ascii.eqb c ","); [reflexivity |].
  destruct (Py.split_on "," r); reflexivity.
Qed.

Lemma lower_split s : Py.split (Py.lower s) = map Py.lower (Py.split s).
Proof.
  induction s as [|c r IH]; [reflexivity |].
  cbn [Py.lower Py.split]. rewrite isspace_tolower.
  destruct (Py.isspace c); [exact IH |].
  destruct r as [|c' r']; [reflexivity |].
  cbn [Py.lower] in *. rewrite isspace_tolower.
  destruct (Py.isspace c'); [rewrite IH; reflexivity |].
  rewrite IH. destruct (Py.split (String c' r')); reflexivity.
Qed.

Lemma title_from_lower cased s :
  Py.title_from cased (Py.lower s) = Py.title_from cased s.
Proof.
  revert cased. induction s as [|c r IH]; intros cased; [reflexivity |].
  cbn [Py.lower Py.title_from]. rewrite !IH.
  destruct c as [[] [] [] [] [] [] [] []]; destruct cased; reflexivity.
Qed.

Lemma strip_title_lower p : strip_title (Py.lower p) = strip_title p.
Proof.
  unfold strip_title, Py.title. rewrite lower_strip. apply title_from_lower.
Qed.

Lemma parse_parts_lower s : parse_parts (Py.lower s) = parse_parts s.
Proof.
  unfold parse_parts. rewrite lower_split_on, lower_split, !map_map, !length_map.
  rewrite (map_ext _ _ strip_title_lower (Py.split_on "," s)).
  rewrite (map_ext _ _ strip_title_lower (Py.split s)). reflexivity.
Qed.

(** X11: recognition is blind to letter case.  Two step-1 inputs that
    differ only in the case of their ASCII letters are parsed to the same
    name and address, so the turn looks up or creates the same identity,
    leaves the same state and sends the same reply. *)
Theorem recognition_ignores_case
    (w : world) (sid query other : string) (st : state) (s : Session.t) :
  Py.lower other = Py.lower query ->
  session_states st !! sid = Some s ->
  Session.step s = 1%Z ->
  parse_parts (Py.strip other) = parse_parts (Py.strip query)
  /\ handle_conversation w (Some sid) (Some other) st
     = handle_conversation w (Some sid) (Some query) st.
Proof.
  intros Hlower Hs Hstep.
  assert (Hparts : parse_parts (Py.strip other) = parse_parts (Py.strip query)).
  { rewrite <- (parse_parts_lower (Py.strip other)),
      <- (parse_parts_lower (Py.strip query)), <- !lower_strip, Hlower.
    reflexivity. }
  assert (Htruthy : Py.truthy (Py.strip other) = Py.truthy (Py.strip query)).
  { rewrite <- (truthy_lower (Py.strip other)), <- (truthy_lower (Py.strip query)),
      <- !lower_strip, Hlower. reflexivity. }
  split; [exact Hparts |].
  unfold handle_conversation.
  change (default "" (Some other)) with other.
  change (default "" (Some query)) with query. rewrite Htruthy.
  destruct (negb (Py.truthy_opt (Some sid)) || negb (Py.truthy (Py.strip query)));
    [reflexivity |].
  change (default "" (Some sid)) with sid.
  rewrite !bind_run, (get_session_data_known _ _ _ Hs), Hstep.
  change (1 =? 1)%Z with true. cbv iota.
  unfold handle_step_1. rewrite Hparts. reflexivity.
Qed.

Lemma recognition_ignores_case_witness :
  handle_conversation world_up (Some "s1") (Some "RAVI, pune") state_returning
  = handle_conversation world_up (Some "s1") (Some "Ravi, Pune") state_returning.
Proof.
  apply (recognition_ignores_case world_up "s1" "Ravi, Pune" "RAVI, pune"
           state_returning session_started); reflexivity.
Defined.

(** ** What the handlers raise *)

Lemma jsonify_reply_raises text audio_path next_step e :
  jsonify_reply text audio_path next_step = Raise e -> e = AttributeError.
Proof. destruct audio_path; simpl; congruence. Qed.

Lemma get_current_weather_raises w a b lang e :
  readable w -> get_current_weather w a b lang = Raise e -> e = TypeError.
Proof.
  intros Hw. unfold get_current_weather.
  destruct (open_meteo w a b) as [|current|e'] eqn:E.
  - discriminate.
  - unfold weather_text. destruct a, b, (is_hi lang); congruence.
  - exfalso. exact (proj1 (Hw a b e') E).
Qed.

Lemma get_soil_data_returns w a b lang e :
  readable w -> get_soil_data w a b lang <> Raise e.
Proof.
  intros Hw. unfold get_soil_data.
  destruct (soilgrids w b a) as [|means|e'] eqn:E; try discriminate.
  exfalso. exact (proj2 (Hw b a e') E).
Qed.

Lemma answer_raises w farmer lang i e :
  readable w -> answer w farmer lang i = Raise e -> e = TypeError.
Proof.
  intros Hw. destruct i; simpl; try discriminate.
  - apply get_current_weather_raises, Hw.
  - intros H. exfalso. exact (get_soil_data_returns _ _ _ _ _ Hw H).
Qed.

Lemma send_raises w sid lang text st s e :
  session_states st !! sid = Some s ->
  snd (send w sid lang text st) = Raise e ->
  text = Raise e \/ e = AttributeError.
Proof.
  intros Hs. unfold send. rewrite bind_run, lift_run.
  destruct text as [response_text|e']; cbn [snd]; [| intros [= ->]; auto].
  rewrite bind_run, (session_of_run _ _ _ Hs), lift_run. cbn [snd].
  intros H. right. exact (jsonify_reply_raises _ _ _ _ H).
Qed.

(** X12: when the weather and soil services answer with bodies the
    providers can read (or fail with a [RequestException]), a request
    raises nothing but the [AttributeError] of a missing speech file or
    the [TypeError] of formatting a missing coordinate.  In particular
    the handlers never raise a [KeyError] on the session dictionary (the
    session is stored before it is used) nor an [IntegrityError] on the
    table (a row is added only after the lookup of its pair has failed). *)
Theorem handlers_raise_little
    (w : world) (r : request) (st : state) (e : exn) :
  readable w ->
  snd (handle w r st) = Raise e ->
  e = AttributeError \/ e = TypeError.
Proof.
  intros Hw.
  destruct r as [session_id lang | session_id query]; simpl.
  - destruct (Py.truthy_opt session_id) eqn:Hsid.
    + apply truthy_opt_some in Hsid as (sid & -> & Hsid).
      rewrite (start_session_run _ _ _ _ Hsid). cbn [snd].
      intros H. left. exact (jsonify_reply_raises _ _ _ _ H).
    + unfold start_session. rewrite Hsid. discriminate.
  - destruct (Py.truthy_opt session_id) eqn:Hsid;
      [destruct (Py.truthy (Py.strip (default "" query))) eqn:Hq |].
    2: { unfold handle_conversation. rewrite Hq, orb_true_r. discriminate. }
    2: { unfold handle_conversation. rewrite Hsid. discriminate. }
    apply truthy_opt_some in Hsid as (sid & -> & Hsid).
    assert (Hquery : handle_conversation w (Some sid) query st
                     = handle_conversation w (Some sid) (Some (default "" query)) st)
      by (destruct query; reflexivity).
    rewrite Hquery, (handle_conversation_dispatch _ _ _ _ Hsid Hq). cbv zeta.
    set (s := default Session.fresh (session_states st !! sid)).
    set (input := Py.strip (default "" query)).
    assert (Hs : session_states (put_session sid s st) !! sid = Some s)
      by apply put_session_lookup.
    destruct (Session.step s =? 1)%Z.
    { rewrite (handle_step_1_run _ _ _ _ _ _ Hs). cbv zeta.
      destruct (Db.filter_by_first _ _ _) as [f|];
        [destruct (Py.truthy_opt _) |]; cbn [snd];
        intros H; left; exact (jsonify_reply_raises _ _ _ _ H). }
    destruct (Session.step s =? 2)%Z.
    { rewrite (handle_step_2_run _ _ _ _ _ _ Hs). cbv zeta.
      destruct (Db.get _ _) as [f|];
        [| cbn [snd]; intros H; left; exact (jsonify_reply_raises _ _ _ _ H)].
      destruct (geocode_address w (Farmer.address f)) as [lat lon].
      destruct (PyFloat.truthy_opt lat && PyFloat.truthy_opt lon);
        [| cbn [snd]; intros H; left; exact (jsonify_reply_raises _ _ _ _ H)].
      erewrite get_api_advice_run by (cbn [session_states]; apply lookup_insert_eq).
      destruct (get_current_weather w lat lon (Session.lang s)) as [weather_info|e']
        eqn:Eweather.
      - destruct (get_soil_data w lat lon (Session.lang s)) as [soil_info|e'] eqn:Esoil.
        + cbn [snd]. intros H. left. exact (jsonify_reply_raises _ _ _ _ H).
        + exfalso. exact (get_soil_data_returns _ _ _ _ _ Hw Esoil).
      - cbn [snd]. intros [= <-]. right.
        exact (get_current_weather_raises _ _ _ _ _ Hw Eweather). }
    destruct (3 <=? Session.step s)%Z; [| discriminate].
    unfold handle_active_chat. rewrite bind_run, (session_of_run _ _ _ Hs).
    rewrite bind_run, read_run.
    destruct (Db.get _ _) as [f|]; [| discriminate].
    destruct (negb _); [discriminate |].
    rewrite get_active_chat_response_classify. intros H.
    destruct (send_raises _ _ _ _ _ _ _ Hs H) as [Hanswer | ->]; [| auto].
    right. exact (answer_raises _ _ _ _ _ Hw Hanswer).
Qed.

Lemma handlers_raise_little_witness :
  AttributeError = AttributeError \/ AttributeError = TypeError.
Proof.
  apply (handlers_raise_little world_mute (StartSession (Some "s1") (Some "en"))
           state_empty AttributeError).
  - intros a b e. split; discriminate.
  - reflexivity.
Defined.

(** ** From step 1 to step 2 *)

(** X13: the identity linked at step 1 is the one step 2 will load.  On
    a table with unique ids, after an accepted step-1 turn the
    [farmer_id] stored in the session finds, by primary key, a row whose
    name and address are the parsed ones, whether the row was there or
    has just been added. *)
Theorem linked_identity_is_found_by_id
    (w : world) (sid query : string) (st : state) (s : Session.t) :
  Py.truthy sid = true ->
  Py.truthy (Py.strip query) = true ->
  session_states st !! sid = Some s ->
  Session.step s = 1%Z ->
  List.NoDup (map Farmer.id (farmers st)) ->
  let st' := fst (handle_conversation w (Some sid) (Some query) st) in
  exists s' f',
    session_states st' !! sid = Some s'
    /\ Db.get (Session.farmer_id s') (farmers st') = Some f'
    /\ Farmer.name f' = parsed_name (parse_parts (Py.strip query))
    /\ Farmer.address f' = parsed_address (parse_parts (Py.strip query)).
Proof.
  intros Hsid Hq Hs Hstep Hnd st'. subst st'.
  rewrite (handle_conversation_run _ _ _ _ _ Hsid Hq Hs), Hstep.
  change (1 =? 1)%Z with true. cbv iota.
  rewrite (handle_step_1_run _ _ _ _ _ _ Hs). cbv zeta.
  destruct (Db.filter_by_first _ _ (farmers st)) as [f|] eqn:Hfind.
  - destruct (filter_by_first_some _ _ _ _ Hfind) as (Hn & Ha & Hin).
    destruct (Py.truthy_opt (Farmer.last_problem_summary f));
      cbn [fst]; rewrite put_session_lookup, put_session_farmers;
      eexists _, f; (split; [reflexivity |]);
      (split; [apply (get_of_row _ _ Hnd Hin) | auto]).
  - cbn [fst session_states farmers]. rewrite lookup_insert_eq.
    eexists _, (Db.new_farmer (Db.next_id (farmers st))
                  (parsed_name (parse_parts (Py.strip query)))
                  (parsed_address (parse_parts (Py.strip query))) (Session.lang s)).
    split; [reflexivity |]. split; [| split; reflexivity].
    apply (get_app_new (farmers st)
             (Db.new_farmer (Db.next_id (farmers st)) _ _ (Session.lang s))).
    intros g Hg. apply next_id_above in Hg. simpl. lia.
Qed.

Lemma linked_identity_is_found_by_id_witness :
  exists s' f',
    session_states
      (fst (handle_conversation world_up (Some "s1") (Some "Ravi, Pune") state_started))
      !! "s1" = Some s'
    /\ Db.get (Session.farmer_id s')
         (farmers (fst (handle_conversation world_up (Some "s1") (Some "Ravi, Pune")
                          state_started)))
       = Some f'
    /\ Farmer.name f' = "Ravi" /\ Farmer.address f' = "Pune".
Proof.
  apply (linked_identity_is_found_by_id world_up "s1" "Ravi, Pune" state_started
           session_started); try reflexivity.
  constructor.
Defined.

(** ** Market prices *)

Lemma priced_crop_has_hindi_name k price :
  dict_get prices k = Some price -> exists word, dict_get hindi_crops k = Some word.
Proof.
  unfold prices, hindi_crops. cbn [dict_get].
  destruct (String.eqb "wheat" k); [eauto |].
  destruct (String.eqb "rice" k); [eauto |].
  destruct (String.eqb "corn" k); [eauto | discriminate].
Qed.

(** X14: the price table is read with the lower-cased crop name.  In
    Hindi the answer depends on the crop only up to letter case, because
    every priced crop has a Hindi word and the name as typed is never
    shown; in English a priced crop is named as typed.  A crop that is
    not priced gets the same fixed text whatever its spelling. *)
Theorem market_prices_ignore_case (crop_name other lang : string) :
  Py.lower other = Py.lower crop_name ->
  get_market_prices other "hi" = get_market_prices crop_name "hi"
  /\ (dict_get prices (Py.lower crop_name) = None ->
      get_market_prices other lang = get_market_prices crop_name lang)
  /\ (forall price, dict_get prices (Py.lower crop_name) = Some price ->
      get_market_prices other "en"
      = "The current market price for **" +:+ other +:+ "** is ₹" +:+ pretty price
        +:+ " per quintal (OGD API setup pending).").
Proof.
  intros Hlower. unfold get_market_prices. rewrite Hlower.
  destruct (dict_get prices (Py.lower crop_name)) as [price|] eqn:Hprice.
  - destruct (priced_crop_has_hindi_name _ _ Hprice) as [word Hword].
    cbn [is_hi String.eqb]. rewrite Hword.
    split; [reflexivity |]. split; [discriminate |].
    intros p [= <-]. reflexivity.
  - split; [reflexivity |]. split; [reflexivity | discriminate].
Qed.

Lemma market_prices_ignore_case_witness :
  get_market_prices "WHEAT" "hi" = get_market_prices "wheat" "hi".
Proof.
  destruct (market_prices_ignore_case "wheat" "WHEAT" "hi" eq_refl) as [H _].
  exact H.
Defined.
